(** * Bazarr: backup manager and Radarr file browser

    A shallow embedding of [bazarr/utilities/backup.py] and of the GET
    handler of [bazarr/api/files/files_radarr.py].

    The Python code is sequential file-system manipulation with
    exceptions, logging and one hard process exit.  It is embedded as
    functions in a state-and-exception monad over a [world]: a flat
    file store, a clock, the list of effects performed so far and the
    log records emitted so far.  Every operating-system primitive can
    fail; which requests the operating system refuses is part of the
    world. *)

From Stdlib Require Import ZArith List Ascii String Floats Lia.
From stdpp Require Import gmap strings list pretty sorting.

Local Open Scope Z_scope.

(** ** Strings and POSIX paths *)

Module PyStr.

(** [s.startswith(pre)] *)
Fixpoint startswith (s pre : string) : bool :=
  match pre with
  | EmptyString => true
  | String a pre' =>
      match s with
      | EmptyString => false
      | String b s' => if Ascii.eqb a b then startswith s' pre' else false
      end
  end.

(** [s.endswith(suf)]: some tail of [s] is [suf]. *)
Fixpoint endswith (s suf : string) : bool :=
  if String.eqb s suf then true
  else match s with
       | EmptyString => false
       | String _ s' => endswith s' suf
       end.

(** The remainder of [s] after the prefix [pre], when [s] starts with it. *)
Fixpoint strip_prefix (pre s : string) : option string :=
  match pre with
  | EmptyString => Some s
  | String a pre' =>
      match s with
      | EmptyString => None
      | String b s' => if Ascii.eqb a b then strip_prefix pre' s' else None
      end
  end.

Fixpoint last_char (s : string) : option ascii :=
  match s with
  | EmptyString => None
  | String c s' =>
      match s' with
      | EmptyString => Some c
      | String _ _ => last_char s'
      end
  end.

(** ['/' in s] *)
Fixpoint has_sep (s : string) : bool :=
  match s with
  | EmptyString => false
  | String c s' => if Ascii.eqb c "/" then true else has_sep s'
  end.

(** [posixpath.join(a, b)]: an absolute [b] replaces [a]; a separator
    is inserted unless [a] is empty or already ends with one. *)
Definition path_join (a b : string) : string :=
  if startswith b "/" then b
  else if String.eqb a "" || endswith a "/" then a +:+ b
  else a +:+ "/" +:+ b.

(** [posixpath.basename(p)]: what follows the last separator. *)
Fixpoint basename (p : string) : string :=
  match p with
  | EmptyString => EmptyString
  | String c p' =>
      if has_sep p' then basename p'
      else if Ascii.eqb c "/" then p' else String c p'
  end.

(** [s.lstrip("/")] *)
Fixpoint lstrip_sep (s : string) : string :=
  match s with
  | EmptyString => EmptyString
  | String c s' => if Ascii.eqb c "/" then lstrip_sep s' else s
  end.

(** Splits a pattern at its first ["*"]. *)
Fixpoint split_star (pat : string) : option (string * string) :=
  match pat with
  | EmptyString => None
  | String c pat' =>
      if Ascii.eqb c "*" then Some (EmptyString, pat')
      else match split_star pat' with
           | Some (pre, suf) => Some (String c pre, suf)
           | None => None
           end
  end.

(** [glob]'s test for a pattern whose only wildcard is one ["*"] in its
    last component: the path starts with what precedes the star, ends
    with what follows it, and the star spans no separator. *)
Definition glob_match (pat p : string) : bool :=
  match split_star pat with
  | None => String.eqb pat p
  | Some (pre, suf) =>
      match strip_prefix pre p with
      | None => false
      | Some rest => endswith rest suf && negb (has_sep rest)
      end
  end.

End PyStr.
Export PyStr.

Global Arguments path_join : simpl never.

(** ** Exceptions and outcomes *)

(** The exception classes that occur.  [KeyboardInterrupt] stands for the
    classes that derive from [BaseException] only, which [except Exception]
    lets through; [BadZipFile] and [SqliteError] derive from [Exception] but
    not from [OSError]. *)
Inductive exn : Type :=
| OSError
| ValueError
| TypeError
| KeyError
| OverflowError
| BadZipFile
| SqliteError
| KeyboardInterrupt.

Definition is_Exception (e : exn) : bool :=
  match e with KeyboardInterrupt => false | _ => true end.
Definition is_OSError (e : exn) : bool :=
  match e with OSError => true | _ => false end.
Definition is_ValueError (e : exn) : bool :=
  match e with ValueError => true | _ => false end.
Definition is_BadZipFile (e : exn) : bool :=
  match e with BadZipFile => true | _ => false end.

(** [repr(e)], reduced to the class name. *)
Definition repr_exn (e : exn) : string :=
  match e with
  | OSError => "OSError()"
  | ValueError => "ValueError()"
  | TypeError => "TypeError()"
  | KeyError => "KeyError()"
  | OverflowError => "OverflowError()"
  | BadZipFile => "BadZipFile()"
  | SqliteError => "Error()"
  | KeyboardInterrupt => "KeyboardInterrupt()"
  end.

(** How a call ends: it returns, it raises, or the process is gone
    ([os._exit]). *)
Inductive outcome (A : Type) : Type :=
| Ret (a : A)
| Raise (e : exn)
| Exit (code : Z).
Arguments Ret {A} a.
Arguments Raise {A} e.
Arguments Exit {A} code.

Global Instance outcome_ret : MRet outcome := λ A a, Ret a.
Global Instance outcome_bind : MBind outcome := λ A B f m,
  match m with
  | Ret a => f a
  | Raise e => Raise e
  | Exit c => Exit c
  end.

(** ** The world *)

#[local] Set Warnings "-register-all".

(** File contents: plain bytes, or a well-formed zip archive given by its
    members in order.  A file that [ZipFile] cannot read is a [Blob]. *)
Inductive content : Type :=
| Blob (bytes : string)
| Zip (members : list (string * content)).

Inductive node : Type :=
| File (data : content) (mtime : Z)
| Dir (mtime : Z).

(** Requests to the operating system (and to SQLite) that can be refused:
    permission denied, read-only or full device, locked or damaged
    database ... *)
Inductive sysop : Type :=
| OpMakedirs (p : string)
| OpRead (p : string)
| OpWrite (p : string)
| OpRemove (p : string)
| OpSqliteOpen (p : string)
| OpSqliteBackup (src dst : string).

(** What a call did to the file store and to the hosting process, in
    order: changes of the store, directory listings, the restart request. *)
Inductive event : Type :=
| EvMakedirs (p : string)
| EvCreate (p : string)
| EvCopy (src dst : string)
| EvSqliteBackup (src dst : string)
| EvRemove (p : string)
| EvZipWrite (archive arcname : string)
| EvGlob (pattern : string)
| EvRestart.

Inductive level : Type := DEBUG | INFO | ERROR | EXCEPTION.

(** The store is flat: a path names a node; timestamps are microseconds
    since the epoch, and the clock stands still during one call. *)
Record world : Type := World {
  nodes : gmap string node;
  clock : Z;
  refuses : sysop → bool;
  trace : list event;
  log : list (level * string)
}.

Definition set_nodes (f : gmap string node → gmap string node) (w : world) : world :=
  World (f (nodes w)) (clock w) (refuses w) (trace w) (log w).
Definition add_event (ev : event) (w : world) : world :=
  World (nodes w) (clock w) (refuses w) (trace w ++ [ev]) (log w).
Definition add_log (l : level) (msg : string) (w : world) : world :=
  World (nodes w) (clock w) (refuses w) (trace w) (log w ++ [(l, msg)]).

(** ** The monad of Python statements *)

Definition M (A : Type) : Type := world → outcome A * world.

(** Sequencing: a raise or an exit skips what follows. *)
Definition bind {A B} (m : M A) (f : A → M B) : M B := λ w,
  match m w with
  | (Ret a, w') => f a w'
  | (Raise e, w') => (Raise e, w')
  | (Exit c, w') => (Exit c, w')
  end.

Global Instance M_ret : MRet M := λ A a w, (Ret a, w).
Global Instance M_bind : MBind M := λ A B f m, bind m f.

Declare Scope py_scope.
Notation "'let*' x := m 'in' k" := (bind m (λ x, k))
  (at level 10, x name, m at level 100, k at level 200) : py_scope.
Notation "m ;; k" := (bind m (λ _, k)) : py_scope.
Open Scope py_scope.

Definition raise {A} (e : exn) : M A := λ w, (Raise e, w).
Definition pass : M unit := mret tt.
Definition lift {A} (o : outcome A) : M A := λ w, (o, w).

(** [try: body except C: handler] *)
Definition try_except {A} (body : M A) (catches : exn → bool)
    (handler : exn → M A) : M A := λ w,
  match body w with
  | (Raise e, w') => if catches e then handler e w' else (Raise e, w')
  | r => r
  end.

(** [try: body except C: handler else: orelse].  What [orelse] raises is
    not caught. *)
Definition try_except_else {A B} (body : M A) (catches : exn → bool)
    (handler : exn → M B) (orelse : A → M B) : M B := λ w,
  match body w with
  | (Ret a, w') => orelse a w'
  | (Raise e, w') => if catches e then handler e w' else (Raise e, w')
  | (Exit c, w') => (Exit c, w')
  end.

(** [try: body finally: final].  The final block runs on return and on
    raise, not after [os._exit]; what it raises replaces the pending
    outcome. *)
Definition try_finally {A} (body : M A) (final : M unit) : M A := λ w,
  match body w with
  | (Exit c, w') => (Exit c, w')
  | (r, w') =>
      match final w' with
      | (Ret _, w'') => (r, w'')
      | (Raise e, w'') => (Raise e, w'')
      | (Exit c, w'') => (Exit c, w'')
      end
  end.

(** [for x in xs: body x] *)
Fixpoint for_each {A} (xs : list A) (body : A → M unit) : M unit :=
  match xs with
  | [] => mret tt
  | x :: xs' => body x ;; for_each xs' body
  end.

(** [[f x for x in xs]] *)
Fixpoint map_M {A B} (f : A → M B) (xs : list A) : M (list B) :=
  match xs with
  | [] => mret []
  | x :: xs' => let* y := f x in let* ys := map_M f xs' in mret (y :: ys)
  end.

(** ** [logging] *)

Definition logging_debug (msg : string) : M unit := λ w, (Ret tt, add_log DEBUG msg w).
Definition logging_info (msg : string) : M unit := λ w, (Ret tt, add_log INFO msg w).
Definition logging_error (msg : string) : M unit := λ w, (Ret tt, add_log ERROR msg w).
Definition logging_exception (msg : string) : M unit := λ w, (Ret tt, add_log EXCEPTION msg w).

(** ** Numbers: [int], [float] and the ["%.1f"] format *)

Module Num.

(** A Python number as [sizeof_fmt] meets it: the [int] it is called
    with, or the [float] a true division leaves. *)
Inductive number : Type :=
| PyInt (z : Z)
| PyFloat (f : float).

(** [float(z)]: round to nearest, ties to even; too large an [int]
    raises. *)
Definition float_of_int (z : Z) : outcome float :=
  let f := SF2Prim (binary_normalize prec emax z 0 false) in
  if PrimFloat.is_infinity f then Raise OverflowError else Ret f.

Definition to_float (n : number) : outcome float :=
  match n with
  | PyInt z => float_of_int z
  | PyFloat f => Ret f
  end.

(** [abs(num) < 1000.0]; an [int] is compared exactly. *)
Definition abs_lt_1000 (n : number) : bool :=
  match n with
  | PyInt z => Z.abs z <? 1000
  | PyFloat f => PrimFloat.ltb (PrimFloat.abs f) 1000%float
  end.

(** [num / 1000.0] *)
Definition div_1000 (n : number) : outcome float :=
  f ← to_float n; mret (PrimFloat.div f 1000%float).

(** [n / d] rounded to the nearest integer, ties to even ([0 < d]). *)
Definition round_half_even (n d : Z) : Z :=
  let q := n / d in
  let r := n mod d in
  if 2 * r <? d then q
  else if d <? 2 * r then q + 1
  else if Z.even q then q else q + 1.

(** [format(x, ".1f")]: the exact binary value, correctly rounded to one
    decimal.  The minimum width 3 of ["3.1f"] never pads: the result has
    at least three characters. *)
Definition format_1f (x : float) : string :=
  match Prim2SF x with
  | S754_zero s => if s then "-0.0" else "0.0"
  | S754_infinity s => if s then "-inf" else "inf"
  | S754_nan => "nan"
  | S754_finite s m e =>
      let t := if 0 <=? e then Z.pos m * 2 ^ e * 10
               else round_half_even (Z.pos m * 10) (2 ^ (- e)) in
      (if s then "-" else "") +:+ pretty (t / 10) +:+ "." +:+ pretty (t mod 10)
  end.

Definition format_number_1f (n : number) : outcome string :=
  f ← to_float n; mret (format_1f f).

End Num.
Export Num.

(** [sizeof_fmt(num, suffix)], lines 202-207: the loop over the units,
    then the fall-through to ["Y"]. *)
Fixpoint sizeof_fmt_loop (units : list string) (num : number) (suffix : string)
    : outcome string :=
  match units with
  | [] => s ← format_number_1f num; mret (s +:+ " Y" +:+ suffix)
  | unit :: units' =>
      if abs_lt_1000 num
      then s ← format_number_1f num; mret (s +:+ " " +:+ unit +:+ suffix)
      else x ← div_1000 num; sizeof_fmt_loop units' (PyFloat x) suffix
  end.

Definition sizeof_fmt (num : number) (suffix : string) : outcome string :=
  sizeof_fmt_loop [""; "K"; "M"; "G"; "T"; "P"; "E"; "Z"] num suffix.

(** The default [suffix="B"], as every caller in the module uses it. *)
Definition sizeof_fmt_B (num : number) : outcome string := sizeof_fmt num "B".

(** ** Operating-system primitives *)

Definition isfile (w : world) (p : string) : bool :=
  match nodes w !! p with Some (File _ _) => true | _ => false end.
Definition isdir (w : world) (p : string) : bool :=
  match nodes w !! p with Some (Dir _) => true | _ => false end.

Definition os_path_isfile (p : string) : M bool := λ w, (Ret (isfile w p), w).
Definition os_path_isdir (p : string) : M bool := λ w, (Ret (isdir w p), w).

(** [os.makedirs(p)]: fails when [p] exists.  Only [p] itself is entered
    in the flat store. *)
Definition os_makedirs (p : string) : M unit := λ w,
  if refuses w (OpMakedirs p) then (Raise OSError, w)
  else match nodes w !! p with
       | Some _ => (Raise OSError, w)
       | None => (Ret tt, add_event (EvMakedirs p) (set_nodes (insert p (Dir (clock w))) w))
       end.

(** [os.remove(p)]: removes a file; a missing path or a directory raises. *)
Definition os_remove (p : string) : M unit := λ w,
  if refuses w (OpRemove p) then (Raise OSError, w)
  else match nodes w !! p with
       | Some (File _ _) => (Ret tt, add_event (EvRemove p) (set_nodes (delete p) w))
       | _ => (Raise OSError, w)
       end.

(** [os.remove] applied to a variable that may hold [None]. *)
Definition os_remove_value (p : option string) : M unit :=
  match p with
  | Some p => os_remove p
  | None => raise TypeError
  end.

(** [shutil.copy(src, dst)]: copies into [dst] when it is a directory;
    the copy is stamped with the current time.  [SameFileError] is an
    [OSError]. *)
Definition shutil_copy (src dst : string) : M string := λ w,
  if refuses w (OpRead src) then (Raise OSError, w)
  else match nodes w !! src with
       | Some (File c _) =>
           let target := if isdir w dst then path_join dst (basename src) else dst in
           if String.eqb src target then (Raise OSError, w)
           else if refuses w (OpWrite target) then (Raise OSError, w)
           else if isdir w target then (Raise OSError, w)
           else (Ret target,
                 add_event (EvCopy src target)
                   (set_nodes (insert target (File c (clock w))) w))
       | _ => (Raise OSError, w)
       end.

(** [io.open(p, "w")]: creates or truncates. *)
Definition io_open_w (p : string) : M string := λ w,
  if refuses w (OpWrite p) then (Raise OSError, w)
  else if isdir w p then (Raise OSError, w)
  else (Ret p, add_event (EvCreate p) (set_nodes (insert p (File (Blob "") (clock w))) w)).

(** [f.write('')] and [f.close()] leave the empty file as it is. *)
Definition file_write_empty (f : string) : M unit := mret tt.
Definition file_close (f : string) : M unit := mret tt.

Definition os_path_getmtime (p : string) : M Z := λ w,
  match nodes w !! p with
  | Some (File _ t) | Some (Dir t) => (Ret t, w)
  | None => (Raise OSError, w)
  end.

(** [glob(pattern)]: the matching paths, in the order the store lists
    them (a directory listing has no specified order). *)
Definition glob (pattern : string) : M (list string) := λ w,
  (Ret (List.filter (glob_match pattern) (map_to_list (nodes w)).*1),
   add_event (EvGlob pattern) w).

(** [os._exit(code)]: the process ends at once. *)
Definition os__exit {A} (code : Z) : M A := λ w, (Exit code, w).

(** *** SQLite *)

(** [sqlite3.connect(p)]: a connection is known by its path; a missing
    database file is created empty. *)
Definition sqlite3_connect (p : string) : M string := λ w,
  if refuses w (OpSqliteOpen p) then (Raise SqliteError, w)
  else match nodes w !! p with
       | Some (Dir _) => (Raise SqliteError, w)
       | Some (File _ _) => (Ret p, w)
       | None => (Ret p, add_event (EvCreate p)
                           (set_nodes (insert p (File (Blob "") (clock w))) w))
       end.

(** [src.backup(dst)] inside [with dst:]: the online backup writes the
    source database into the target file. An archive is not a database. *)
Definition sqlite3_backup (src dst : string) : M unit := λ w,
  if refuses w (OpSqliteBackup src dst) then (Raise SqliteError, w)
  else match nodes w !! src with
       | Some (File (Blob b) _) =>
           if isdir w dst then (Raise SqliteError, w)
           else (Ret tt, add_event (EvSqliteBackup src dst)
                           (set_nodes (insert dst (File (Blob b) (clock w))) w))
       | _ => (Raise SqliteError, w)
       end.

Definition sqlite3_close (con : string) : M unit := mret tt.

(** *** Zip archives *)

(** [ZipFile(p, 'w')]: the archive exists, empty, from this point on; an
    archive handle is known by its path. *)
Definition ZipFile_w (p : string) : M string := λ w,
  if refuses w (OpWrite p) then (Raise OSError, w)
  else if isdir w p then (Raise OSError, w)
  else (Ret p, add_event (EvCreate p) (set_nodes (insert p (File (Zip []) (clock w))) w)).

(** [z.write(filename, arcname)]: appends one member; a directory is
    stored as an empty member whose name ends with a separator. *)
Definition ZipFile_write (z filename arcname : string) : M unit := λ w,
  if refuses w (OpRead filename) then (Raise OSError, w)
  else match nodes w !! filename with
       | None => (Raise OSError, w)
       | Some n =>
           let member := match n with
                         | File c _ => (arcname, c)
                         | Dir _ => (arcname +:+ "/", Blob "")
                         end in
           match nodes w !! z with
           | Some (File (Zip ms) _) =>
               (Ret tt, add_event (EvZipWrite z member.1)
                          (set_nodes (insert z (File (Zip (ms ++ [member])) (clock w))) w))
           | _ => (Raise OSError, w)
           end
       end.

(** [ZipFile(p, 'r')]: the members; a file that is not an archive raises
    [BadZipFile]. *)
Definition ZipFile_r (p : string) : M (list (string * content)) := λ w,
  if refuses w (OpRead p) then (Raise OSError, w)
  else match nodes w !! p with
       | Some (File (Zip ms) _) => (Ret ms, w)
       | Some (File (Blob _) _) => (Raise BadZipFile, w)
       | _ => (Raise OSError, w)
       end.

(** One member of [extractall(path)]: names are taken relative to [path];
    a name that ends with a separator is a directory. *)
Definition ZipFile_extract_file (target : string) (c : content) : M unit := λ w,
  if refuses w (OpWrite target) then (Raise OSError, w)
  else if isdir w target then (Raise OSError, w)
  else (Ret tt, add_event (EvCreate target)
                  (set_nodes (insert target (File c (clock w))) w)).

Definition ZipFile_extract_dir (target : string) : M unit :=
  let* d := os_path_isdir target in
  if d then pass else os_makedirs target.

Definition ZipFile_extract (path : string) (member : string * content) : M unit :=
  let target := path_join path (lstrip_sep member.1) in
  if endswith member.1 "/"
  then ZipFile_extract_dir target
  else ZipFile_extract_file target member.2.

Definition ZipFile_extractall (ms : list (string * content)) (path : string) : M unit :=
  for_each ms (ZipFile_extract path).

(** ** The host: configuration, environment, local time *)

(** A configuration value as [int()] and an f-string receive it. *)
Inductive setting : Type :=
| SettingInt (z : Z)
| SettingStr (s : string).

Module PyInt.

Fixpoint lstrip (s : string) : string :=
  match s with
  | EmptyString => EmptyString
  | String c s' => if Ascii.is_space c then lstrip s' else s
  end.

Definition strip (s : string) : string :=
  String.rev (lstrip (String.rev (lstrip s))).

(** Decimal digits, with single underscores allowed between digits. *)
Fixpoint parse_digits (s : string) (acc : Z) (after_digit : bool) : option Z :=
  match s with
  | EmptyString => if after_digit then Some acc else None
  | String c s' =>
      match Ascii.is_nat c with
      | Some d => parse_digits s' (10 * acc + Z.of_nat d) true
      | None =>
          if Ascii.eqb c "_" && after_digit
          then parse_digits s' acc false
          else None
      end
  end.

(** [int(s)] for a string: surrounding white space, an optional sign,
    decimal digits. *)
Definition int_of_string (s : string) : outcome Z :=
  let t := strip s in
  let parsed :=
    match t with
    | String "+" r => parse_digits r 0 false
    | String "-" r => Z.opp <$> parse_digits r 0 false
    | _ => parse_digits t 0 false
    end in
  match parsed with
  | Some z => Ret z
  | None => Raise ValueError
  end.

End PyInt.

(** [int(v)] *)
Definition py_int (v : setting) : outcome Z :=
  match v with
  | SettingInt z => Ret z
  | SettingStr s => PyInt.int_of_string s
  end.

(** [str(v)], as an f-string inserts it. *)
Definition py_str (v : setting) : string :=
  match v with
  | SettingInt z => pretty z
  | SettingStr s => s
  end.

(** [str(v)] of a variable that holds a path or [None]. *)
Definition py_str_value (v : option string) : string :=
  match v with
  | Some s => s
  | None => "None"
  end.

(** What the module reads from [app.get_args.args], [app.config.settings]
    and [os.environ], and what the platform decides: the offset of local
    time from UTC at an instant (microseconds), the calendar rendering of
    [strftime], the size on disk of an archive and of a directory. *)
Record host : Type := Host {
  config_dir : string;
  backup_folder : string;
  backup_retention : setting;
  environ : gmap string string;
  utcoffset : Z → Z;
  strftime : string → Z → string;
  zip_size : list (string * content) → Z;
  dir_size : Z
}.

(** ** [datetime]: naive date-times as microseconds since 1970-01-01 00:00 *)

Module Datetime.

(** [datetime.min] and [datetime.max] *)
Definition dt_min : Z := -62135596800000000.
Definition dt_max : Z := 253402300799999999.
Definition in_range (t : Z) : bool := (dt_min <=? t) && (t <=? dt_max).

Definition us_per_day : Z := 86400000000.

(** [timedelta(days=d)] *)
Definition timedelta_days (d : Z) : outcome Z :=
  if Z.abs d <=? 999999999 then Ret (d * us_per_day) else Raise OverflowError.

(** [t + delta] *)
Definition datetime_add (t delta : Z) : outcome Z :=
  if in_range (t + delta) then Ret (t + delta) else Raise OverflowError.

End Datetime.
Export Datetime.

Section Backup.

Variable cfg : host.

(** [datetime.fromtimestamp(ts)]: the naive local time of an instant. *)
Definition datetime_fromtimestamp (ts : Z) : outcome Z :=
  let t := ts + utcoffset cfg ts in
  if in_range t then Ret t else Raise ValueError.

(** [datetime.utcnow()]: the naive UTC time of now. *)
Definition datetime_utcnow : M Z := λ w, (Ret (clock w), w).

(** [datetime.now()]: the naive local time of now. *)
Definition datetime_now : M Z := λ w, (Ret (clock w + utcoffset cfg (clock w)), w).

(** [os.environ[key]] *)
Definition os_environ (key : string) : M string :=
  match environ cfg !! key with
  | Some v => mret v
  | None => raise KeyError
  end.

Definition os_path_getsize (p : string) : M Z := λ w,
  match nodes w !! p with
  | Some (File (Blob b) _) => (Ret (Z.of_nat (String.length b)), w)
  | Some (File (Zip ms) _) => (Ret (zip_size cfg ms), w)
  | Some (Dir _) => (Ret (dir_size cfg), w)
  | None => (Raise OSError, w)
  end.

(** Modelled from the spec: [app.server.webserver.restart] is not part of
    the sources at hand; the spec names it the process-control
    collaborator that is signalled to restart the hosting process.  The
    request is recorded. *)
Definition webserver_restart : M unit := λ w, (Ret tt, add_event EvRestart w).

(** *** Lines 17-30 *)

Definition get_backup_path : M string :=
  let backup_dir := backup_folder cfg in
  let* d := os_path_isdir backup_dir in
  (if negb d then os_makedirs backup_dir else pass) ;;
  logging_debug ("Backup directory path is: " +:+ backup_dir) ;;
  mret backup_dir.

Definition get_restore_path : M string :=
  let restore_dir := path_join (config_dir cfg) "restore" in
  let* d := os_path_isdir restore_dir in
  (if negb d then os_makedirs restore_dir else pass) ;;
  logging_debug ("Restore directory path is: " +:+ restore_dir) ;;
  mret restore_dir.

(** *** Lines 33-45 *)

(** Stable insertion by key, as [list.sort(key=...)] orders equal keys. *)
Fixpoint insert_by_key (x : Z * string) (l : list (Z * string)) : list (Z * string) :=
  match l with
  | [] => [x]
  | y :: l' => if x.1 <=? y.1 then x :: y :: l' else y :: insert_by_key x l'
  end.

Definition sort_by_key (l : list (Z * string)) : list (Z * string) :=
  foldr insert_by_key [] l.

(** [l.sort(key=key)]: every key is computed first. *)
Definition list_sort (key : string → M Z) (l : list string) : M (list string) :=
  let* keys := map_M key l in
  mret (sort_by_key (zip keys l)).*2.

Record backup_info : Type := BackupInfo {
  info_type : string;
  info_filename : string;
  info_size : string;
  info_date : string
}.

Definition get_backup_files (fullpath : bool)
    : M (if fullpath then list string else list backup_info) :=
  let* backup_dir := get_backup_path in
  let backup_file_pattern := path_join backup_dir "bazarr_backup_v*.zip" in
  let* file_list := glob backup_file_pattern in
  let* file_list := list_sort os_path_getmtime file_list in
  match fullpath return M (if fullpath then list string else list backup_info) with
  | true => mret file_list
  | false =>
      map_M (λ x,
        let* sz := os_path_getsize x in
        let* size := lift (sizeof_fmt_B (PyInt sz)) in
        let* mt := os_path_getmtime x in
        let* dt := lift (datetime_fromtimestamp mt) in
        mret (BackupInfo "backup" (basename x) size (strftime cfg "%b %d %Y" dt)))
        file_list
  end.

(** *** Lines 48-85 *)

(** Lines 57-70: the online snapshot of the database; the name of the
    temporary file, or [None] when anything in the block raised. *)
Definition snapshot_database (database_src_file : string) : M (option string) :=
  try_except
    (let* database_src_con := sqlite3_connect database_src_file in
     let* backup_dir := get_backup_path in
     let database_backup_file := path_join backup_dir "bazarr_temp.db" in
     let* database_backup_con := sqlite3_connect database_backup_file in
     sqlite3_backup database_src_con database_backup_con ;;
     sqlite3_close database_backup_con ;;
     sqlite3_close database_src_con ;;
     mret (Some database_backup_file))
    is_Exception
    (λ _, logging_exception "Unable to backup database file." ;; mret None).

(** Lines 75-80: the body of [with ZipFile(...) as backupZip]. *)
Definition write_archive (archive : string) (database_backup_file : option string)
    (config_file : string) : M unit :=
  let* backupZip := ZipFile_w archive in
  match database_backup_file with
  | Some f =>
      if String.eqb f ""
      then logging_debug "Database file is not included in backup. See previous exception"
      else ZipFile_write backupZip f "bazarr.db"
  | None => logging_debug "Database file is not included in backup. See previous exception"
  end ;;
  ZipFile_write backupZip config_file "config.ini".

Definition backup_filename_of (version now_string : string) : string :=
  "bazarr_backup_v" +:+ version +:+ "_" +:+ now_string +:+ ".zip".

Definition backup_to_zip : M unit :=
  let* now := datetime_now in
  let now_string := strftime cfg "%Y.%m.%d_%H.%M.%S" now in
  let* version := os_environ "BAZARR_VERSION" in
  let backup_filename := backup_filename_of version now_string in
  logging_debug ("Backup filename will be: " +:+ backup_filename) ;;
  let database_src_file := path_join (path_join (config_dir cfg) "db") "bazarr.db" in
  logging_debug ("Database file path to backup is: " +:+ database_src_file) ;;
  let* database_backup_file := snapshot_database database_src_file in
  let config_file := path_join (path_join (config_dir cfg) "config") "config.ini" in
  logging_debug ("Config file path to backup is: " +:+ config_file) ;;
  let* backup_dir := get_backup_path in
  write_archive (path_join backup_dir backup_filename) database_backup_file config_file ;;
  try_except (os_remove_value database_backup_file) is_OSError
    (λ _, logging_exception ("Unable to delete temporary database backup file: "
                             +:+ py_str_value database_backup_file)).

(** *** Lines 88-140 *)

(** Lines 132-140: the final removal of both staged files. *)
Definition remove_staged (restore_config_path dest_config_path
    restore_database_path dest_database_path : string) : M unit :=
  try_except (os_remove restore_config_path) is_OSError
    (λ _, logging_exception ("Unable to delete " +:+ dest_config_path)) ;;
  try_except (os_remove restore_database_path) is_OSError
    (λ _, logging_exception ("Unable to delete " +:+ dest_database_path)).

(** Lines 95-125: the branch taken when both files are staged. *)
Definition apply_staged (restore_config_path dest_config_path
    restore_database_path dest_database_path : string) : M unit :=
  try_except
    (shutil_copy restore_config_path dest_config_path ;;
     os_remove restore_config_path)
    is_OSError
    (λ _, logging_exception
            ("Unable to restore or delete config.ini to " +:+ dest_config_path)) ;;
  try_except_else
    (shutil_copy restore_database_path dest_database_path ;;
     os_remove restore_database_path)
    is_OSError
    (λ _, logging_exception
            ("Unable to restore or delete db to " +:+ dest_database_path))
    (λ _, try_except
            (let* shm := os_path_isfile (dest_database_path +:+ "-shm") in
             (if shm then os_remove (dest_database_path +:+ "-shm") else pass) ;;
             let* wal := os_path_isfile (dest_database_path +:+ "-wal") in
             if wal then os_remove (dest_database_path +:+ "-wal") else pass)
            is_OSError
            (λ _, logging_exception "Unable to delete SHM and WAL file.")) ;;
  logging_info "Backup restored successfully. Bazarr will restart." ;;
  try_except_else
    (io_open_w (path_join (config_dir cfg) "bazarr.restart"))
    is_Exception
    (λ e, logging_error ("BAZARR Cannot create restart file: " +:+ repr_exn e))
    (λ restart_file,
       logging_info "Bazarr is being restarted..." ;;
       file_write_empty restart_file ;;
       file_close restart_file ;;
       os__exit 0).

(** The [return] of line 130 leaves before the final removal; the two
    other branches fall through to it. *)
Definition restore_from_backup : M unit :=
  let* restore_dir := get_restore_path in
  let restore_config_path := path_join restore_dir "config.ini" in
  let dest_config_path := path_join (path_join (config_dir cfg) "config") "config.ini" in
  let* restore_dir := get_restore_path in
  let restore_database_path := path_join restore_dir "bazarr.db" in
  let dest_database_path := path_join (path_join (config_dir cfg) "db") "bazarr.db" in
  let* staged_config := os_path_isfile restore_config_path in
  let* staged_database := os_path_isfile restore_database_path in
  if staged_config && staged_database then
    apply_staged restore_config_path dest_config_path
      restore_database_path dest_database_path ;;
    remove_staged restore_config_path dest_config_path
      restore_database_path dest_database_path
  else if staged_config || staged_database then
    logging_debug "Cannot restore a partial backup. You must have both config and database." ;;
    remove_staged restore_config_path dest_config_path
      restore_database_path dest_database_path
  else
    logging_debug "No backup to restore.".

(** *** Lines 143-168 *)

(** Lines 146-163: the value of [success] when the [try] statement is
    left without a pending exception. *)
Definition stage_archive (src_zip_file_path dest_zip_file_path : string) : M bool :=
  try_finally
    (try_except_else
       (shutil_copy src_zip_file_path dest_zip_file_path)
       is_OSError
       (λ _, logging_exception
               ("Unable to copy backup archive to " +:+ dest_zip_file_path) ;;
             mret false)
       (λ _, try_except
               (let* zipObj := ZipFile_r dest_zip_file_path in
                let* restore_dir := get_restore_path in
                ZipFile_extractall zipObj restore_dir)
               is_BadZipFile
               (λ _, logging_exception
                       ("Unable to extract files from backup archive "
                        +:+ dest_zip_file_path)) ;;
             mret true))
    (try_except (os_remove dest_zip_file_path) is_OSError
       (λ _, logging_exception
               ("Unable to delete backup archive " +:+ dest_zip_file_path))).

Definition prepare_restore (filename : string) : M unit :=
  let* backup_dir := get_backup_path in
  let src_zip_file_path := path_join backup_dir filename in
  let* restore_dir := get_restore_path in
  let dest_zip_file_path := path_join restore_dir filename in
  let* success := stage_archive src_zip_file_path dest_zip_file_path in
  if success then
    logging_debug "time to restart" ;;
    webserver_restart
  else pass.

(** *** Lines 171-199 *)

(** Lines 183-188: one turn of the loop. *)
Definition rotate_file (file : string) : M unit :=
  let* mtime := os_path_getmtime file in
  let* modified := lift (datetime_fromtimestamp mtime) in
  let* days := lift (py_int (backup_retention cfg)) in
  let* delta := lift (timedelta_days days) in
  let* expiry := lift (datetime_add modified delta) in
  let* now := datetime_utcnow in
  if expiry <? now then
    logging_debug ("Deleting old backup file " +:+ file) ;;
    try_except (os_remove file) is_OSError
      (λ _, logging_debug ("Unable to delete backup file " +:+ file))
  else pass.

Definition backup_rotation : M unit :=
  let* valid :=
    try_except (lift (py_int (backup_retention cfg)) ;; mret true)
      is_ValueError
      (λ _, logging_error
              "Backup retention time must be a valid integer. Please fix this in your settings." ;;
            mret false) in
  if valid then
    let* backup_files := get_backup_files true in
    logging_debug ("Cleaning up backup files older than "
                   +:+ py_str (backup_retention cfg) +:+ " days") ;;
    for_each backup_files rotate_file ;;
    logging_debug "Finished cleaning up old backup files"
  else pass.

Definition delete_backup_file (filename : string) : M bool :=
  let* backup_dir := get_backup_path in
  let backup_file_path := path_join backup_dir filename in
  try_except (os_remove backup_file_path ;; mret true) is_OSError
    (λ _, logging_debug ("Unable to delete backup file " +:+ backup_file_path) ;;
          mret false).

End Backup.

(** ** The Radarr file browser: [BrowseRadarrFS.get] *)

Module FilesRadarr.

(** Modelled from the spec: [radarr.filesystem.browse_radarr_filesystem]
    is not part of the sources at hand.  The spec gives its interface:
    [browse(path) -> {directories: [{name, path}]} | null], failing with
    a null result or a thrown error. *)
Record provider_item : Type := ProviderItem {
  item_name : string;
  item_path : string
}.
Record provider_result : Type := ProviderResult {
  directories : list provider_item
}.

(** An element of the response, as the handler builds it. *)
Record entry : Type := Entry {
  name : string;
  children : bool;
  path : string
}.

Section Handler.

Variable browse_radarr_filesystem : string → outcome (option provider_result).

(** Lines 33-38: the [try] statement; [None] stands for the
    [return []] of the handler. *)
Definition browse_or_none (path : string) : outcome (option provider_result) :=
  match (result ← browse_radarr_filesystem path;
         match result with
         | None => Raise ValueError
         | Some r => Ret (Some r)
         end) with
  | Raise e => if is_Exception e then Ret None else Raise e
  | r => r
  end.

(** Lines 28-41, after the request parser has produced [path]. *)
Definition get (path : string) : outcome (list entry) :=
  found ← browse_or_none path;
  match found with
  | None => Ret []
  | Some result =>
      Ret (foldl (λ data item, data ++ [Entry (item_name item) true (item_path item)])
             [] (directories result))
  end.

End Handler.

End FilesRadarr.

(** * Specification vocabulary *)

(** ** The paths the module works on *)

Section Paths.

Variable cfg : host.

Definition restore_dir : string := path_join (config_dir cfg) "restore".
Definition restore_config_path : string := path_join restore_dir "config.ini".
Definition restore_database_path : string := path_join restore_dir "bazarr.db".
Definition dest_config_path : string :=
  path_join (path_join (config_dir cfg) "config") "config.ini".
Definition dest_database_path : string :=
  path_join (path_join (config_dir cfg) "db") "bazarr.db".
Definition restart_path : string := path_join (config_dir cfg) "bazarr.restart".
(** The live files under the names [backup_to_zip] gives them. *)
Definition config_file : string := dest_config_path.
Definition database_src_file : string := dest_database_path.
Definition temp_database_path : string :=
  path_join (backup_folder cfg) "bazarr_temp.db".
Definition backup_pattern : string :=
  path_join (backup_folder cfg) "bazarr_backup_v*.zip".

(** The archive [backup_to_zip] writes when started in [w] under
    version [version]. *)
Definition archive_path (version : string) (w : world) : string :=
  path_join (backup_folder cfg)
    (backup_filename_of version
       (strftime cfg "%Y.%m.%d_%H.%M.%S" (clock w + utcoffset cfg (clock w)))).

End Paths.

(** What [posixpath.join] puts before a relative second argument. *)
Definition dir_prefix (a : string) : string :=
  if String.eqb a "" || endswith a "/" then a else a +:+ "/".

(** What [posixpath.join] puts before the names under [args.config_dir]. *)
Definition root (cfg : host) : string := dir_prefix (config_dir cfg).

(** The names of the members of the archive stored at [p]. *)
Definition member_names (w : world) (p : string) : option (list string) :=
  match nodes w !! p with
  | Some (File (Zip ms) _) => Some ms.*1
  | _ => None
  end.

(** ** Effects and frames *)

(** The path an effect changes. *)
Definition touches (ev : event) : option string :=
  match ev with
  | EvMakedirs p | EvCreate p | EvRemove p => Some p
  | EvCopy _ d | EvSqliteBackup _ d => Some d
  | EvZipWrite z _ => Some z
  | EvGlob _ | EvRestart => None
  end.

(** [steps Q w w']: [w'] comes from [w] by effects that all satisfy [Q];
    the trace records them, the store is unchanged at every path no
    effect names, directories only appear through [EvMakedirs] and never
    disappear, and what the operating system refuses and the clock stay
    as they are. *)
Record steps (Q : event → Prop) (w w' : world) : Prop := Steps {
  steps_refuses : refuses w' = refuses w;
  steps_clock : clock w' = clock w;
  steps_dirs_stay : ∀ p, isdir w p = true → nodes w' !! p = nodes w !! p;
  steps_events : ∃ evs, trace w' = trace w ++ evs ∧ Forall Q evs ∧
    (∀ p, (∀ ev, ev ∈ evs → touches ev ≠ Some p) → nodes w' !! p = nodes w !! p) ∧
    (∀ p, isdir w' p = true → isdir w p = true ∨ EvMakedirs p ∈ evs)
}.


(** [os.remove(p)] would succeed in [w]. *)
Definition removable (w : world) (p : string) : bool :=
  negb (refuses w (OpRemove p)) && isfile w p.

(** Every run of [m] stays within the effects [Q]. *)
Definition performs {A} (Q : event → Prop) (m : M A) : Prop :=
  ∀ w, steps Q w (m w).2.

(** Classes of effects. *)
Definition no_effect (ev : event) : Prop := False.
Definition cleanup_effect (cfg : host) (ev : event) : Prop :=
  ev = EvMakedirs (restore_dir cfg) ∨
  ev = EvRemove (restore_config_path cfg) ∨
  ev = EvRemove (restore_database_path cfg).

(** ** Named blocks and classes of requests *)

(** Lines 36-45 of [get_backup_files]: what follows the glob. *)
Definition listing_tail (cfg : host) (fullpath : bool) (file_list : list string)
    : M (if fullpath then list string else list backup_info) :=
  let* file_list := list_sort os_path_getmtime file_list in
  match fullpath return M (if fullpath then list string else list backup_info) with
  | true => mret file_list
  | false =>
      map_M (λ x,
        let* sz := os_path_getsize cfg x in
        let* size := lift (sizeof_fmt_B (PyInt sz)) in
        let* mt := os_path_getmtime x in
        let* dt := lift (datetime_fromtimestamp cfg mt) in
        mret (BackupInfo "backup" (basename x) size (strftime cfg "%b %d %Y" dt)))
        file_list
  end.

(** Lines 72-85 of [backup_to_zip]: what follows the snapshot. *)
Definition finish_backup (cfg : host) (backup_filename : string)
    (database_backup_file : option string) : M unit :=
  logging_debug ("Config file path to backup is: " +:+ config_file cfg) ;;
  let* backup_dir := get_backup_path cfg in
  write_archive (path_join backup_dir backup_filename) database_backup_file
    (config_file cfg) ;;
  try_except (os_remove_value database_backup_file) is_OSError
    (λ _, logging_exception ("Unable to delete temporary database backup file: "
                             +:+ py_str_value database_backup_file)).

(** The requests that go to SQLite. *)
Definition sqlite_request (o : sysop) : bool :=
  match o with OpSqliteOpen _ | OpSqliteBackup _ _ => true | _ => false end.

(** What the snapshot step does before the online backup itself. *)
Definition snapshot_effect (cfg : host) (ev : event) : Prop :=
  ev = EvCreate (database_src_file cfg) ∨ ev = EvCreate (temp_database_path cfg).

(** ** Statements of the specification that the code does not meet *)

(** With exactly one file staged, [restore_from_backup] changes nothing. *)
Definition partial_restore_is_noop (cfg : host) (w : world) : Prop :=
  isfile w (restore_config_path cfg) ≠ isfile w (restore_database_path cfg) →
  let w' := (restore_from_backup cfg w).2 in
  nodes w' = nodes w ∧ trace w' = trace w.



(** ** Vocabulary of the further properties *)






(** One member written by [extractall(path)]: the world, and the store
    alone. *)
Definition extract_write (path : string) (w : world) (m : string * content) : world :=
  add_event (EvCreate (path_join path (lstrip_sep m.1)))
    (set_nodes (insert (path_join path (lstrip_sep m.1)) (File m.2 (clock w))) w).

Definition stage_member (path : string) (t : Z) (nd : gmap string node)
    (m : string * content) : gmap string node :=
  <[path_join path (lstrip_sep m.1) := File m.2 t]> nd.

(** The characters [glob] reads as wildcards ([glob.has_magic]). *)
Fixpoint has_magic (s : string) : bool :=
  match s with
  | EmptyString => false
  | String c s' =>
      if Ascii.eqb c "*" then true
      else if Ascii.eqb c "?" then true
      else if Ascii.eqb c "[" then true
      else has_magic s'
  end.

(** ** Hosts and worlds of the examples *)

Module Examples.

(** A host on UTC, with the given retention setting. *)
Definition host_utc (retention : setting) : host :=
  Host "/config" "/config/backup" retention
    {["BAZARR_VERSION" := "1.4.0"]}
    (λ _, 0) (λ _ _, "2024.05.01_12.00.00") (λ _, 512) 4096.

(** The same host, its local time [hours] east of UTC. *)
Definition host_east (hours : Z) (retention : setting) : host :=
  Host "/config" "/config/backup" retention
    {["BAZARR_VERSION" := "1.4.0"]}
    (λ _, hours * 3600000000) (λ _ _, "2024.05.01_12.00.00") (λ _, 512) 4096.

Definition world_of (ns : list (string * node)) (now : Z) (refused : sysop → bool) : world :=
  World (list_to_map ns) now refused [] [].

Definition nothing_refused : sysop → bool := λ _, false.

(** Only the configuration file is staged. *)
Definition partial_staging : world :=
  world_of [("/config/restore", Dir 0);
            ("/config/restore/config.ini", File (Blob "[general]") 10);
            ("/config/config/config.ini", File (Blob "[old]") 1);
            ("/config/db/bazarr.db", File (Blob "old db") 1)]
    100 nothing_refused.


(** Both files are staged and nothing is refused. *)
Definition full_staging : world :=
  world_of [("/config/restore", Dir 0);
            ("/config/restore/config.ini", File (Blob "[general]") 10);
            ("/config/restore/bazarr.db", File (Blob "new db") 10);
            ("/config/config/config.ini", File (Blob "[old]") 1);
            ("/config/db/bazarr.db", File (Blob "old db") 1)]
    100 nothing_refused.


(** A live installation; SQLite refuses the online backup. *)
Definition database_locked : world :=
  world_of [("/config/backup", Dir 0);
            ("/config/config/config.ini", File (Blob "[general]") 1);
            ("/config/db/bazarr.db", File (Blob "db") 1)]
    100
    (λ o, match o with OpSqliteBackup _ _ => true | _ => false end).

(** A live installation where nothing is refused. *)
Definition live : world :=
  world_of [("/config/backup", Dir 0);
            ("/config/config/config.ini", File (Blob "[general]") 1);
            ("/config/db/bazarr.db", File (Blob "db") 1)]
    100 nothing_refused.



Definition hour : Z := 3600000000.

Definition archive_20h : string :=
  "/config/backup/bazarr_backup_v1.4.0_2024.04.30_16.00.00.zip".
Definition archive_25h : string :=
  "/config/backup/bazarr_backup_v1.4.0_2024.04.30_11.00.00.zip".
Definition corrupt_name : string := "bazarr_backup_v1.4.0_2024.04.01_12.00.00.zip".

(** A backup directory whose one archive is not a zip file. *)
Definition corrupt_archive : world :=
  world_of [("/config/restore", Dir 0);
            ("/config/backup", Dir 0);
            ("/config/backup/" +:+ corrupt_name, File (Blob "not a zip") 5)]
    100 nothing_refused.

(** One archive, written twenty hours before now. *)
Definition one_archive_20h : world :=
  world_of [("/config/backup", Dir 0);
            (archive_20h,
             File (Zip [("config.ini", Blob "[general]")]) (1000 * hour))]
    (1020 * hour) nothing_refused.

(** One archive, written twenty-five hours before now. *)
Definition one_archive_25h : world :=
  world_of [("/config/backup", Dir 0);
            (archive_25h,
             File (Zip [("config.ini", Blob "[general]")]) (1000 * hour))]
    (1025 * hour) nothing_refused.

(** A provider that knows two directories under the root. *)
Definition provider_two (p : string) : outcome (option FilesRadarr.provider_result) :=
  if String.eqb p "/"
  then Ret (Some (FilesRadarr.ProviderResult
                    [FilesRadarr.ProviderItem "movies" "/movies";
                     FilesRadarr.ProviderItem "tv" "/tv"]))
  else if String.eqb p "/missing" then Ret None
  else Raise OSError.

Definition saved_name : string := "bazarr_backup_v1.4.0_2024.04.30_16.00.00.zip".

(** A full archive in the backup directory, beside a live installation. *)
Definition backup_store : world :=
  world_of [("/config/backup", Dir 0);
            ("/config/restore", Dir 0);
            ("/config/backup/" +:+ saved_name,
             File (Zip [("bazarr.db", Blob "saved db"); ("config.ini", Blob "[saved]")]) 50);
            ("/config/config/config.ini", File (Blob "[general]") 1);
            ("/config/db/bazarr.db", File (Blob "db") 1)]
    100 nothing_refused.

(** The same, the archive holding the configuration only. *)
Definition degraded_store : world :=
  world_of [("/config/backup", Dir 0);
            ("/config/restore", Dir 0);
            ("/config/backup/" +:+ saved_name,
             File (Zip [("config.ini", Blob "[saved]")]) 50);
            ("/config/config/config.ini", File (Blob "[general]") 1);
            ("/config/db/bazarr.db", File (Blob "db") 1)]
    100 nothing_refused.

(** A host whose environment lacks [BAZARR_VERSION]. *)
Definition host_no_version : host :=
  Host "/config" "/config/backup" (SettingInt 1) ∅
    (λ _, 0) (λ _ _, "2024.05.01_12.00.00") (λ _, 512) 4096.


(** Both files are staged; neither live file can be written. *)
Definition copies_refused : world :=
  world_of [("/config/restore", Dir 0);
            ("/config/restore/config.ini", File (Blob "[general]") 10);
            ("/config/restore/bazarr.db", File (Blob "new db") 10);
            ("/config/config/config.ini", File (Blob "[old]") 1);
            ("/config/db/bazarr.db", File (Blob "old db") 1)]
    100
    (λ o, match o with
          | OpWrite "/config/config/config.ini" | OpWrite "/config/db/bazarr.db" => true
          | _ => false
          end).

(** A provider interrupted from the keyboard. *)
Definition provider_interrupted (p : string)
    : outcome (option FilesRadarr.provider_result) :=
  Raise KeyboardInterrupt.

End Examples.

(** * Lemmas *)

(** ** Strings and paths *)

Lemma string_app_assoc (a b c : string) : (a +:+ b) +:+ c = a +:+ (b +:+ c).
Proof.
  induction a as [|x a IH]; [done|].
  change (String x ((a +:+ b) +:+ c) = String x (a +:+ (b +:+ c))). by rewrite IH.
Qed.

Lemma string_app_ne (x a b : string) : a ≠ b → x +:+ a ≠ x +:+ b.
Proof. intros H E. by apply (inj _) in E. Qed.

Lemma last_char_app (x t : string) :
  t ≠ "" → last_char (x +:+ t) = last_char t.
Proof.
  intros Ht. induction x as [|c x IH]; [done|].
  change (last_char (String c (x +:+ t)) = last_char t).
  cbn. destruct (x +:+ t) eqn:E; [|done].
  destruct x; [done|discriminate].
Qed.

Lemma last_char_ne (a b : string) : last_char a ≠ last_char b → a ≠ b.
Proof. congruence. Qed.

Lemma endswith_sep_last (s : string) :
  endswith s "/" = true → last_char s = Some "/"%char.
Proof.
  induction s as [|c s IH]; [done|].
  cbn. destruct (Ascii.eqb_spec c "/") as [->|Hc].
  - destruct s; [done|]. cbn. intros H. apply IH. exact H.
  - cbn. destruct s; [done|]. apply IH.
Qed.

Lemma path_join_relative (a b : string) :
  startswith b "/" = false → path_join a b = dir_prefix a +:+ b.
Proof.
  intros Hb. unfold path_join, dir_prefix. rewrite Hb.
  destruct (String.eqb a "" || endswith a "/"); [done|].
  by rewrite string_app_assoc.
Qed.

Lemma dir_prefix_app (x t : string) :
  t ≠ "" → last_char t ≠ Some "/"%char → dir_prefix (x +:+ t) = x +:+ t +:+ "/".
Proof.
  intros Ht Hl. unfold dir_prefix.
  assert (String.eqb (x +:+ t) "" = false) as ->.
  { apply String.eqb_neq. destruct x; [done|discriminate]. }
  destruct (endswith (x +:+ t) "/") eqn:E.
  - apply endswith_sep_last in E. rewrite last_char_app in E; done.
  - cbn. by rewrite string_app_assoc.
Qed.

Section PathFacts.

Variable cfg : host.

Lemma restore_dir_eq : restore_dir cfg = root cfg +:+ "restore".
Proof. by apply path_join_relative. Qed.

Lemma restore_config_path_eq : restore_config_path cfg = root cfg +:+ "restore/config.ini".
Proof.
  unfold restore_config_path. rewrite path_join_relative by done.
  rewrite restore_dir_eq, dir_prefix_app by done. by rewrite !string_app_assoc.
Qed.

Lemma restore_database_path_eq : restore_database_path cfg = root cfg +:+ "restore/bazarr.db".
Proof.
  unfold restore_database_path. rewrite path_join_relative by done.
  rewrite restore_dir_eq, dir_prefix_app by done. by rewrite !string_app_assoc.
Qed.

Lemma dest_config_path_eq : dest_config_path cfg = root cfg +:+ "config/config.ini".
Proof.
  unfold dest_config_path. rewrite !path_join_relative by done.
  fold (root cfg). rewrite dir_prefix_app by done. by rewrite !string_app_assoc.
Qed.

Lemma dest_database_path_eq : dest_database_path cfg = root cfg +:+ "db/bazarr.db".
Proof.
  unfold dest_database_path. rewrite !path_join_relative by done.
  fold (root cfg). rewrite dir_prefix_app by done. by rewrite !string_app_assoc.
Qed.

Lemma restart_path_eq : restart_path cfg = root cfg +:+ "bazarr.restart".
Proof. by apply path_join_relative. Qed.

End PathFacts.

(** Rewrites the fixed paths to [root +:+ literal] and decides their
    inequality on the literals. *)
Ltac path_ne :=
  rewrite ?restore_dir_eq, ?restore_config_path_eq, ?restore_database_path_eq,
    ?dest_config_path_eq, ?dest_database_path_eq, ?restart_path_eq;
  rewrite ?string_app_assoc;
  apply string_app_ne; discriminate.

(** ** The frame calculus *)

Lemma isdir_lookup w w' p :
  nodes w' !! p = nodes w !! p → isdir w' p = isdir w p.
Proof. unfold isdir. by intros ->. Qed.

Lemma isfile_lookup w w' p :
  nodes w' !! p = nodes w !! p → isfile w' p = isfile w p.
Proof. unfold isfile. by intros ->. Qed.

Lemma isdir_true w p : isdir w p = true → ∃ t, nodes w !! p = Some (Dir t).
Proof. unfold isdir. repeat case_match; naive_solver. Qed.

Lemma isfile_true w p : isfile w p = true → ∃ c t, nodes w !! p = Some (File c t).
Proof. unfold isfile. repeat case_match; naive_solver. Qed.


Lemma steps_refl Q w : steps Q w w.
Proof.
  split; [done..|]. exists []. rewrite app_nil_r. repeat split; auto.
Qed.

Lemma steps_trans Q w1 w2 w3 : steps Q w1 w2 → steps Q w2 w3 → steps Q w1 w3.
Proof.
  intros [Hr1 Hc1 Hs1 (evs1 & Ht1 & HQ1 & Hn1 & Hd1)]
         [Hr2 Hc2 Hs2 (evs2 & Ht2 & HQ2 & Hn2 & Hd2)].
  split; [congruence..| |].
  - intros p Hp. rewrite Hs2, Hs1; [done..|]. by rewrite (isdir_lookup _ _ _ (Hs1 p Hp)).
  - exists (evs1 ++ evs2). repeat split.
    + rewrite Ht2, Ht1. by rewrite app_assoc.
    + by apply Forall_app.
    + intros p Hp. rewrite Hn2, Hn1; [done|..]; intros ev Hev; apply Hp; set_solver.
    + intros p Hp. destruct (Hd2 p Hp) as [H|H]; [|right; set_solver].
      destruct (Hd1 p H) as [H'|H']; [by left|right; set_solver].
Qed.

Lemma steps_weaken (Q Q' : event → Prop) w w' :
  (∀ ev, Q ev → Q' ev) → steps Q w w' → steps Q' w w'.
Proof.
  intros HQ [Hr Hc Hs (evs & Ht & HF & Hn & Hd)]. split; [done..|].
  exists evs. repeat split; try done. eapply Forall_impl; eauto.
Qed.

Lemma steps_log Q l msg w : steps Q w (add_log l msg w).
Proof. split; [done..|]. exists []. cbn. rewrite app_nil_r. repeat split; auto. Qed.

(** One recorded change of the store, at the path the effect names. *)
Lemma steps_event (Q : event → Prop) ev f w p :
  Q ev → touches ev = Some p →
  (∀ q, q ≠ p → f (nodes w) !! q = nodes w !! q) →
  (isdir w p = true → f (nodes w) !! p = nodes w !! p) →
  (∀ q, isdir (set_nodes f w) q = true → isdir w q = true ∨ ev = EvMakedirs q) →
  steps Q w (add_event ev (set_nodes f w)).
Proof.
  intros HQ Ht Hf Hp Hd. split; [done..| |].
  - intros q Hq. cbn. destruct (decide (q = p)) as [->|Hne]; auto.
  - exists [ev]. repeat split; cbn.
    + by apply Forall_singleton.
    + intros q Hq. apply Hf. intros ->. apply (Hq ev); [set_solver|done].
    + intros q Hq. destruct (Hd q Hq) as [?| ->]; [by left|right; set_solver].
Qed.

(** Writing a file at a path that holds no directory. *)
Lemma steps_write_file (Q : event → Prop) ev w p c t :
  Q ev → touches ev = Some p → isdir w p = false →
  steps Q w (add_event ev (set_nodes (insert p (File c t)) w)).
Proof.
  intros HQ Ht Hnd. eapply steps_event; [done..| | |].
  - intros q Hq. by rewrite lookup_insert_ne.
  - congruence.
  - intros q. unfold isdir. cbn. destruct (decide (p = q)) as [->|Hne].
    + by rewrite lookup_insert_eq.
    + rewrite lookup_insert_ne by done. auto.
Qed.


Section Performs.

Context {A B : Type} (Q : event → Prop).

Lemma performs_ret (a : A) : performs Q (mret a).
Proof. intros w. apply steps_refl. Qed.

Lemma performs_raise (e : exn) : performs Q (raise e : M A).
Proof. intros w. apply steps_refl. Qed.

Lemma performs_lift (o : outcome A) : performs Q (lift o).
Proof. intros w. apply steps_refl. Qed.

Lemma performs_bind (m : M A) (f : A → M B) :
  performs Q m → (∀ a, performs Q (f a)) → performs Q (bind m f).
Proof.
  intros Hm Hf w. unfold bind. specialize (Hm w).
  destruct (m w) as [[a|e|c] w']; cbn in *; [|done..].
  eapply steps_trans; [done|]. apply Hf.
Qed.

Lemma performs_try_except (m : M A) catches h :
  performs Q m → (∀ e, performs Q (h e)) → performs Q (try_except m catches h).
Proof.
  intros Hm Hh w. unfold try_except. specialize (Hm w).
  destruct (m w) as [[a|e|c] w']; cbn in *; [done| |done].
  destruct (catches e); [|done]. eapply steps_trans; [done|]. apply Hh.
Qed.

Lemma performs_try_except_else (m : M A) catches (h : exn → M B) orelse :
  performs Q m → (∀ e, performs Q (h e)) → (∀ a, performs Q (orelse a)) →
  performs Q (try_except_else m catches h orelse).
Proof.
  intros Hm Hh Ho w. unfold try_except_else. specialize (Hm w).
  destruct (m w) as [[a|e|c] w']; cbn in *; [| |done].
  - eapply steps_trans; [done|]. apply Ho.
  - destruct (catches e); [|done]. eapply steps_trans; [done|]. apply Hh.
Qed.

Lemma performs_try_finally (m : M A) final :
  performs Q m → performs Q final → performs Q (try_finally m final).
Proof.
  intros Hm Hf w. unfold try_finally. specialize (Hm w).
  destruct (m w) as [[a|e|c] w']; cbn in *; [| |done];
    specialize (Hf w'); destruct (final w') as [[[]|e'|c'] w'']; cbn in *;
    eapply steps_trans; done.
Qed.

End Performs.

Lemma performs_weaken {A} (Q Q' : event → Prop) (m : M A) :
  (∀ ev, Q ev → Q' ev) → performs Q m → performs Q' m.
Proof. intros HQ Hm w. eapply steps_weaken; eauto. Qed.

Lemma performs_for_each {A} Q (xs : list A) body :
  (∀ x, performs Q (body x)) → performs Q (for_each xs body).
Proof.
  intros Hb. induction xs as [|x xs IH]; [apply performs_ret|].
  cbn. apply performs_bind; [apply Hb|]. intros _. apply IH.
Qed.

Lemma performs_map_M {A B} Q (f : A → M B) (xs : list A) :
  (∀ x, performs Q (f x)) → performs Q (map_M f xs).
Proof.
  intros Hb. induction xs as [|x xs IH]; [apply performs_ret|].
  cbn. apply performs_bind; [apply Hb|]. intros y.
  apply performs_bind; [apply IH|]. intros ys. apply performs_ret.
Qed.

(** *** The primitives *)

Lemma performs_logging_debug Q msg : performs Q (logging_debug msg).
Proof. intros w. apply steps_log. Qed.
Lemma performs_logging_info Q msg : performs Q (logging_info msg).
Proof. intros w. apply steps_log. Qed.
Lemma performs_logging_error Q msg : performs Q (logging_error msg).
Proof. intros w. apply steps_log. Qed.
Lemma performs_logging_exception Q msg : performs Q (logging_exception msg).
Proof. intros w. apply steps_log. Qed.

Lemma performs_pass Q : performs Q pass.
Proof. intros w. apply steps_refl. Qed.

Lemma performs_os_path_isfile Q p : performs Q (os_path_isfile p).
Proof. intros w. apply steps_refl. Qed.
Lemma performs_os_path_isdir Q p : performs Q (os_path_isdir p).
Proof. intros w. apply steps_refl. Qed.
Lemma performs_os_path_getmtime Q p : performs Q (os_path_getmtime p).
Proof. intros w. unfold os_path_getmtime. repeat case_match; apply steps_refl. Qed.
Lemma performs_os_path_getsize Q cfg p : performs Q (os_path_getsize cfg p).
Proof. intros w. unfold os_path_getsize. repeat case_match; apply steps_refl. Qed.
Lemma performs_datetime_utcnow Q : performs Q datetime_utcnow.
Proof. intros w. apply steps_refl. Qed.
Lemma performs_datetime_now Q cfg : performs Q (datetime_now cfg).
Proof. intros w. apply steps_refl. Qed.
Lemma performs_os_environ Q cfg key : performs Q (os_environ cfg key).
Proof. intros w. unfold os_environ. case_match; apply steps_refl. Qed.
Lemma performs_os__exit {A} Q code : performs Q (os__exit code : M A).
Proof. intros w. apply steps_refl. Qed.

Lemma performs_os_makedirs (Q : event → Prop) p :
  Q (EvMakedirs p) → performs Q (os_makedirs p).
Proof.
  intros HQ w. unfold os_makedirs. repeat case_match; try apply steps_refl. cbn.
  eapply steps_event; [done..| | |].
  - intros q Hq. by rewrite lookup_insert_ne.
  - unfold isdir. by simplify_map_eq.
  - intros q. unfold isdir. cbn. destruct (decide (p = q)) as [->|Hne].
    + by right.
    + rewrite lookup_insert_ne by done. auto.
Qed.

Lemma performs_os_remove (Q : event → Prop) p :
  Q (EvRemove p) → performs Q (os_remove p).
Proof.
  intros HQ w. unfold os_remove. repeat case_match; try apply steps_refl. cbn.
  eapply steps_event; [done..| | |].
  - intros q Hq. by rewrite lookup_delete_ne.
  - unfold isdir. by simplify_map_eq.
  - intros q. unfold isdir. cbn. destruct (decide (p = q)) as [->|Hne].
    + by rewrite lookup_delete_eq.
    + rewrite lookup_delete_ne by done. auto.
Qed.

Lemma performs_shutil_copy (Q : event → Prop) src dst :
  (∀ target, Q (EvCopy src target)) → performs Q (shutil_copy src dst).
Proof.
  intros HQ w. unfold shutil_copy. repeat case_match; try apply steps_refl; cbn.
  all: by eapply steps_write_file.
Qed.

Lemma performs_io_open_w (Q : event → Prop) p :
  Q (EvCreate p) → performs Q (io_open_w p).
Proof.
  intros HQ w. unfold io_open_w. repeat case_match; try apply steps_refl; cbn.
  by eapply steps_write_file.
Qed.

Lemma performs_glob (Q : event → Prop) pattern :
  Q (EvGlob pattern) → performs Q (glob pattern).
Proof.
  intros HQ w. split; [done..|]. exists [EvGlob pattern]. cbn.
  repeat split; auto.
Qed.

(** Discharges [performs] goals along the structure of the code. *)
Ltac perf_step :=
  first
  [ apply performs_bind; [|intros ?]
  | apply performs_try_except; [|intros ?]
  | apply performs_try_except_else; [|intros ?|intros ?]
  | apply performs_try_finally
  | apply performs_ret | apply performs_raise | apply performs_lift
  | apply performs_pass
  | apply performs_logging_debug | apply performs_logging_info
  | apply performs_logging_error | apply performs_logging_exception
  | apply performs_os_path_isfile | apply performs_os_path_isdir
  | apply performs_os_path_getmtime | apply performs_os_path_getsize
  | apply performs_datetime_utcnow | apply performs_datetime_now
  | apply performs_os_environ | apply performs_os__exit
  | apply performs_os_remove | apply performs_os_makedirs
  | apply performs_shutil_copy; intros ? | apply performs_io_open_w
  | apply performs_glob
  | match goal with |- performs _ (if ?b then _ else _) => destruct b end
  | match goal with |- performs _ (match ?x with _ => _ end) => destruct x end ].
Ltac perf := repeat perf_step.

(** ** The outcome calculus *)

Lemma bind_run {A B} (m : M A) (f : A → M B) w :
  bind m f w =
  match m w with
  | (Ret a, w') => f a w'
  | (Raise e, w') => (Raise e, w')
  | (Exit c, w') => (Exit c, w')
  end.
Proof. reflexivity. Qed.

Section Ends.

Context {A B : Type} (X : exn → Prop) (E : Z → Prop).






End Ends.








(** ** Restoring: [restore_from_backup] *)

Section Restore.

Variable cfg : host.

Lemma get_restore_path_performs :
  performs (λ ev, ev = EvMakedirs (restore_dir cfg)) (get_restore_path cfg).
Proof. unfold get_restore_path. perf. done. Qed.

Lemma get_restore_path_outcome w :
  (get_restore_path cfg w).1 = Ret (restore_dir cfg) ∧
    isdir (get_restore_path cfg w).2 (restore_dir cfg) = true
  ∨ (get_restore_path cfg w).1 = Raise OSError.
Proof.
  unfold get_restore_path, bind, os_path_isdir, os_makedirs, isdir, pass, mret, M_ret.
  fold (restore_dir cfg).
  cbn. repeat case_match; simplify_map_eq; auto.
Qed.

(** With the staging directory in place, asking for it only logs. *)
Lemma get_restore_path_present w :
  isdir w (restore_dir cfg) = true →
  get_restore_path cfg w =
    (Ret (restore_dir cfg),
     add_log DEBUG ("Restore directory path is: " +:+ restore_dir cfg) w).
Proof.
  intros H. unfold get_restore_path, bind, os_path_isdir. fold (restore_dir cfg).
  by rewrite H.
Qed.

Lemma restore_from_backup_present w :
  isdir w (restore_dir cfg) = true →
  let rc := restore_config_path cfg in
  let rd := restore_database_path cfg in
  let dc := dest_config_path cfg in
  let dd := dest_database_path cfg in
  restore_from_backup cfg w =
  (if isfile w rc && isfile w rd
   then apply_staged cfg rc dc rd dd ;; remove_staged rc dc rd dd
   else if isfile w rc || isfile w rd
   then logging_debug
          "Cannot restore a partial backup. You must have both config and database." ;;
        remove_staged rc dc rd dd
   else logging_debug "No backup to restore.")
    (add_log DEBUG ("Restore directory path is: " +:+ restore_dir cfg)
       (add_log DEBUG ("Restore directory path is: " +:+ restore_dir cfg) w)).
Proof.
  intros Hd rc rd dc dd.
  unfold restore_from_backup. unfold bind at 1.
  rewrite (get_restore_path_present w Hd). unfold bind at 1.
  rewrite get_restore_path_present by done.
  reflexivity.
Qed.

(** A removal whose failure is logged. *)
Lemma remove_logged p msg w :
  try_except (os_remove p) is_OSError (λ _, logging_exception msg) w =
  (Ret tt, if removable w p then add_event (EvRemove p) (set_nodes (delete p) w)
           else add_log EXCEPTION msg w).
Proof.
  unfold try_except, os_remove, removable, isfile, logging_exception.
  repeat case_match; simplify_eq/=; done.
Qed.

Lemma remove_staged_run a b w :
  remove_staged (restore_config_path cfg) a (restore_database_path cfg) b w =
  (Ret tt,
   let w1 := if removable w (restore_config_path cfg)
             then add_event (EvRemove (restore_config_path cfg))
                    (set_nodes (delete (restore_config_path cfg)) w)
             else add_log EXCEPTION ("Unable to delete " +:+ a) w in
   if removable w (restore_database_path cfg)
   then add_event (EvRemove (restore_database_path cfg))
          (set_nodes (delete (restore_database_path cfg)) w1)
   else add_log EXCEPTION ("Unable to delete " +:+ b) w1).
Proof.
  unfold remove_staged. unfold bind. rewrite remove_logged. rewrite remove_logged.
  cbn zeta. f_equal.
  assert (removable
            (if removable w (restore_config_path cfg)
             then add_event (EvRemove (restore_config_path cfg))
                    (set_nodes (delete (restore_config_path cfg)) w)
             else add_log EXCEPTION ("Unable to delete " +:+ a) w)
            (restore_database_path cfg)
          = removable w (restore_database_path cfg)) as ->; [|done].
  destruct (removable w (restore_config_path cfg)); unfold removable, isfile; cbn;
    [rewrite lookup_delete_ne by path_ne|]; done.
Qed.

(** Without both files staged, the run stays within the cleanup. *)
Lemma restore_without_both w :
  isfile w (restore_config_path cfg) && isfile w (restore_database_path cfg) = false →
  steps (cleanup_effect cfg) w (restore_from_backup cfg w).2.
Proof.
  intros Hnot. unfold restore_from_backup.
  unfold bind at 1.
  pose proof (get_restore_path_performs w) as S1.
  destruct (get_restore_path_outcome w) as [[E1 D1]|E1];
    destruct (get_restore_path cfg w) as [r1 w1]; cbn in E1, S1; subst r1;
    [|eapply steps_weaken; [|exact S1]; intros ? ->; by left].
  cbn in D1. unfold bind at 1. rewrite (get_restore_path_present w1 D1).
  cbn [fst snd].
  set (w2 := add_log _ _ w1).
  unfold bind at 1, os_path_isfile at 1. unfold bind at 1, os_path_isfile at 1.
  fold (restore_config_path cfg) (restore_database_path cfg).
  assert (∀ p, p ≠ restore_dir cfg → isfile w2 p = isfile w p) as Hf.
  { intros p Hp. unfold isfile. cbn.
    destruct S1 as [_ _ _ (evs & _ & HQ & Hn & _)]. rewrite Hn; [done|].
    intros ev Hev. rewrite Forall_forall in HQ. rewrite (HQ ev Hev). cbn. congruence. }
  rewrite !Hf by (symmetry; path_ne). rewrite Hnot.
  eapply steps_trans with w2.
  { eapply steps_trans; [|apply steps_log].
    eapply steps_weaken; [|exact S1]. intros ? ->; by left. }
  assert (performs (cleanup_effect cfg)
            (if isfile w (restore_config_path cfg) || isfile w (restore_database_path cfg)
             then logging_debug
                    "Cannot restore a partial backup. You must have both config and database.";;
                  remove_staged (restore_config_path cfg) (dest_config_path cfg)
                    (restore_database_path cfg) (dest_database_path cfg)
             else logging_debug "No backup to restore.")) as HP.
  { perf; unfold cleanup_effect; auto. }
  apply HP.
Qed.



End Restore.

(** ** Runs of the primitives *)

Lemma os_remove_run p w c t :
  refuses w (OpRemove p) = false →
  nodes w !! p = Some (File c t) →
  os_remove p w = (Ret tt, add_event (EvRemove p) (set_nodes (delete p) w)).
Proof. intros Hr Hf. unfold os_remove. by rewrite Hr, Hf. Qed.

Lemma ZipFile_w_run p w :
  refuses w (OpWrite p) = false → isdir w p = false →
  ZipFile_w p w =
    (Ret p, add_event (EvCreate p) (set_nodes (insert p (File (Zip []) (clock w))) w)).
Proof. intros Hr Hd. unfold ZipFile_w. by rewrite Hr, Hd. Qed.

Lemma ZipFile_write_run z f a w c t ms tz :
  refuses w (OpRead f) = false →
  nodes w !! f = Some (File c t) →
  nodes w !! z = Some (File (Zip ms) tz) →
  ZipFile_write z f a w =
    (Ret tt, add_event (EvZipWrite z a)
               (set_nodes (insert z (File (Zip (ms ++ [(a, c)])) (clock w))) w)).
Proof. intros Hr Hf Hz. unfold ZipFile_write. by rewrite Hr, Hf, Hz. Qed.

(** A connection either fails and leaves the store alone, or returns with
    the database file in place. *)
Lemma sqlite3_connect_cases p w :
  sqlite3_connect p w = (Raise SqliteError, w) ∨
  ∃ w', sqlite3_connect p w = (Ret p, w') ∧ steps (λ ev, ev = EvCreate p) w w' ∧
        isfile w' p = true.
Proof.
  unfold sqlite3_connect.
  destruct (refuses w (OpSqliteOpen p)); [by left|].
  destruct (nodes w !! p) as [[c t|t]|] eqn:E; [right|by left|right].
  - exists w. split; [done|]. split; [apply steps_refl|]. unfold isfile. by rewrite E.
  - eexists. split; [done|]. split.
    + apply steps_write_file; [done..|]. unfold isdir. by rewrite E.
    + unfold isfile. cbn. by rewrite lookup_insert_eq.
Qed.

Lemma sqlite3_backup_cases src dst w :
  sqlite3_backup src dst w = (Raise SqliteError, w) ∨
  ∃ b, sqlite3_backup src dst w =
         (Ret tt, add_event (EvSqliteBackup src dst)
                    (set_nodes (insert dst (File (Blob b) (clock w))) w)) ∧
       isdir w dst = false.
Proof.
  unfold sqlite3_backup.
  destruct (refuses w (OpSqliteBackup src dst)); [by left|].
  destruct (nodes w !! src) as [[[b|ms] t|t]|]; [|by left..].
  destruct (isdir w dst) eqn:E; [by left|]. right. by exists b.
Qed.

Ltac world_simpl :=
  cbn [nodes set_nodes add_event add_log clock refuses trace log fst snd].

(** ** Listing: [get_backup_path], [get_backup_files] *)

Section Listing.

Variable cfg : host.


Lemma get_backup_path_present w :
  isdir w (backup_folder cfg) = true →
  get_backup_path cfg w =
    (Ret (backup_folder cfg),
     add_log DEBUG ("Backup directory path is: " +:+ backup_folder cfg) w).
Proof.
  intros H. unfold get_backup_path, bind, os_path_isdir. by rewrite H.
Qed.

Lemma get_backup_path_refused w :
  isdir w (backup_folder cfg) = false →
  refuses w (OpMakedirs (backup_folder cfg)) = true →
  get_backup_path cfg w = (Raise OSError, w).
Proof.
  intros Hn Hr. unfold get_backup_path, bind, os_path_isdir.
  rewrite Hn. cbn [negb]. unfold os_makedirs. by rewrite Hr.
Qed.

(** What follows the glob only reads. *)
Lemma listing_tail_performs fullpath (file_list : list string) :
  performs no_effect (listing_tail cfg fullpath file_list).
Proof.
  apply performs_bind.
  - unfold list_sort. apply performs_bind; [|intros ?; apply performs_ret].
    apply performs_map_M. intros ?. apply performs_os_path_getmtime.
  - intros l. destruct fullpath; [apply performs_ret|].
    apply performs_map_M. intros x. perf.
Qed.


(** When the directory cannot be created the call raises before it
    lists anything. *)
Lemma listing_fails_without_backup_dir fullpath w :
  isdir w (backup_folder cfg) = false →
  refuses w (OpMakedirs (backup_folder cfg)) = true →
  get_backup_files cfg fullpath w = (Raise OSError, w).
Proof.
  intros Hn Hr. unfold get_backup_files.
  by rewrite bind_run, get_backup_path_refused.
Qed.

End Listing.

(** ** Backing up: [backup_to_zip] *)

Section BackupFacts.

Variable cfg : host.

Lemma temp_database_path_eq :
  temp_database_path cfg = dir_prefix (backup_folder cfg) +:+ "bazarr_temp.db".
Proof. by apply path_join_relative. Qed.

Lemma archive_path_eq version w :
  ∃ stem, archive_path cfg version w = stem +:+ ".zip".
Proof.
  unfold archive_path, backup_filename_of.
  rewrite path_join_relative by done.
  eexists. rewrite <- !string_app_assoc. reflexivity.
Qed.

Lemma last_char_temp : last_char (temp_database_path cfg) = Some "b"%char.
Proof. rewrite temp_database_path_eq, last_char_app; done. Qed.

Lemma last_char_archive version w :
  last_char (archive_path cfg version w) = Some "p"%char.
Proof. destruct (archive_path_eq version w) as [s ->]. by rewrite last_char_app. Qed.

Lemma last_char_config_file : last_char (config_file cfg) = Some "i"%char.
Proof. unfold config_file. rewrite dest_config_path_eq, last_char_app; done. Qed.

Lemma temp_not_empty : temp_database_path cfg ≠ "".
Proof. apply last_char_ne. by rewrite last_char_temp. Qed.

Lemma config_file_ne_src : config_file cfg ≠ database_src_file cfg.
Proof. unfold config_file, database_src_file. path_ne. Qed.

Lemma config_file_ne_temp : config_file cfg ≠ temp_database_path cfg.
Proof. apply last_char_ne. by rewrite last_char_config_file, last_char_temp. Qed.

Lemma archive_ne_config_file version w : archive_path cfg version w ≠ config_file cfg.
Proof. apply last_char_ne. by rewrite last_char_config_file, last_char_archive. Qed.

Lemma archive_ne_temp version w : archive_path cfg version w ≠ temp_database_path cfg.
Proof. apply last_char_ne. by rewrite last_char_temp, last_char_archive. Qed.

(** The snapshot step, with the backup directory in place: it yields
    no file and has not run the online backup, or it yields the
    temporary file and the online backup was its last effect. *)
Lemma snapshot_database_cases w :
  isdir w (backup_folder cfg) = true →
  let src := database_src_file cfg in
  let temp := temp_database_path cfg in
  (∃ w1, snapshot_database cfg src w = (Ret None, w1) ∧
         steps (snapshot_effect cfg) w w1) ∨
  (∃ wc b, snapshot_database cfg src w =
             (Ret (Some temp),
              add_event (EvSqliteBackup src temp)
                (set_nodes (insert temp (File (Blob b) (clock wc))) wc)) ∧
           steps (snapshot_effect cfg) w wc ∧ isdir wc temp = false).
Proof.
  intros Hd src temp. unfold snapshot_database, try_except.
  rewrite bind_run.
  destruct (sqlite3_connect_cases src w) as [->|(wa & -> & Sa & Fa)].
  { left. eexists. split; [done|]. cbn. apply steps_log. }
  assert (steps (snapshot_effect cfg) w wa) as Sa'.
  { eapply steps_weaken; [|exact Sa]. intros ? ->. by left. }
  assert (isdir wa (backup_folder cfg) = true) as Hda.
  { rewrite (isdir_lookup w wa); [done|]. by apply Sa. }
  rewrite bind_run, (get_backup_path_present cfg wa Hda).
  change (path_join (backup_folder cfg) "bazarr_temp.db") with temp.
  set (wb := add_log _ _ wa).
  assert (steps (snapshot_effect cfg) w wb) as Sb.
  { eapply steps_trans; [exact Sa'|apply steps_log]. }
  rewrite bind_run.
  destruct (sqlite3_connect_cases temp wb) as [->|(wc & -> & Sc & Fc)].
  { left. eexists. split; [done|]. cbn. eapply steps_trans; [exact Sb|apply steps_log]. }
  assert (steps (snapshot_effect cfg) w wc) as Sc'.
  { eapply steps_trans; [exact Sb|]. eapply steps_weaken; [|exact Sc].
    intros ? ->. by right. }
  rewrite bind_run.
  destruct (sqlite3_backup_cases src temp wc) as [->|(b & -> & Hnd)].
  { left. eexists. split; [done|]. cbn. eapply steps_trans; [exact Sc'|apply steps_log]. }
  right. exists wc, b. done.
Qed.

Lemma snapshot_frame w wc p :
  steps (snapshot_effect cfg) w wc →
  p ≠ database_src_file cfg → p ≠ temp_database_path cfg →
  nodes wc !! p = nodes w !! p.
Proof.
  intros [_ _ _ (evs & _ & HQ & Hn & _)] H1 H2. apply Hn.
  intros ev Hin Ht. rewrite Forall_forall in HQ.
  destruct (HQ _ Hin) as [-> | ->]; cbn in Ht; congruence.
Qed.

Lemma snapshot_no_new_dirs w wc p :
  steps (snapshot_effect cfg) w wc → isdir wc p = true → isdir w p = true.
Proof.
  intros [_ _ _ (evs & _ & HQ & _ & Hd)] H. destruct (Hd p H) as [?|Hin]; [done|].
  rewrite Forall_forall in HQ. destruct (HQ _ Hin) as [?|?]; done.
Qed.

Lemma snapshot_no_backup_event w wc :
  steps (snapshot_effect cfg) w wc →
  ∃ evs, trace wc = trace w ++ evs ∧ ∀ s d, EvSqliteBackup s d ∉ evs.
Proof.
  intros [_ _ _ (evs & Ht & HQ & _ & _)]. exists evs. split; [done|].
  intros s d Hin. rewrite Forall_forall in HQ. destruct (HQ _ Hin) as [?|?]; done.
Qed.

(** Lines 48-56 only compute names and log them. *)
Lemma backup_to_zip_start version w :
  environ cfg !! "BAZARR_VERSION" = Some version →
  let src := database_src_file cfg in
  let filename := backup_filename_of version
      (strftime cfg "%Y.%m.%d_%H.%M.%S" (clock w + utcoffset cfg (clock w))) in
  backup_to_zip cfg w =
  match snapshot_database cfg src
          (add_log DEBUG ("Database file path to backup is: " +:+ src)
             (add_log DEBUG ("Backup filename will be: " +:+ filename) w)) with
  | (Ret database_backup_file, w1) => finish_backup cfg filename database_backup_file w1
  | (Raise e, w1) => (Raise e, w1)
  | (Exit c, w1) => (Exit c, w1)
  end.
Proof.
  intros Hv src filename. unfold backup_to_zip.
  rewrite bind_run. unfold datetime_now at 1. rewrite bind_run.
  unfold os_environ. rewrite Hv. reflexivity.
Qed.

(** Without a snapshot: the archive holds the configuration only and
    the removal of [None] raises. *)
Lemma finish_backup_without_database filename w c t :
  let archive := path_join (backup_folder cfg) filename in
  isdir w (backup_folder cfg) = true →
  nodes w !! config_file cfg = Some (File c t) →
  isdir w archive = false →
  archive ≠ config_file cfg →
  (∀ o, refuses w o = true → sqlite_request o = true) →
  ∃ wf, finish_backup cfg filename None w = (Raise TypeError, wf) ∧
        trace wf = trace w ++ [EvCreate archive; EvZipWrite archive "config.ini"] ∧
        member_names wf archive = Some ["config.ini"].
Proof.
  intros archive Hd Hc Ha Hne Hr.
  assert (∀ o, sqlite_request o = false → refuses w o = false) as Hr'.
  { intros o Ho. destruct (refuses w o) eqn:E; [|done]. apply Hr in E. congruence. }
  unfold finish_backup. rewrite bind_run. unfold logging_debug at 1.
  rewrite bind_run, get_backup_path_present by done.
  fold archive. rewrite bind_run. unfold write_archive. rewrite bind_run.
  rewrite ZipFile_w_run by (world_simpl; auto).
  rewrite bind_run. unfold logging_debug at 1.
  erewrite ZipFile_write_run; cycle 1.
  { world_simpl. auto. }
  { world_simpl. rewrite lookup_insert_ne by done. exact Hc. }
  { world_simpl. by rewrite lookup_insert_eq. }
  unfold try_except, os_remove_value, raise. cbn [is_OSError].
  eexists. split; [reflexivity|]. split.
  - world_simpl. by rewrite <- app_assoc.
  - unfold member_names. world_simpl. by rewrite lookup_insert_eq.
Qed.

(** With a snapshot: both members are written and the temporary file
    is removed. *)
Lemma finish_backup_with_database filename w c t b tb :
  let archive := path_join (backup_folder cfg) filename in
  let temp := temp_database_path cfg in
  isdir w (backup_folder cfg) = true →
  nodes w !! config_file cfg = Some (File c t) →
  nodes w !! temp = Some (File b tb) →
  isdir w archive = false →
  archive ≠ config_file cfg →
  archive ≠ temp →
  (∀ o, refuses w o = true → sqlite_request o = true) →
  ∃ wf, finish_backup cfg filename (Some temp) w = (Ret tt, wf) ∧
        trace wf = trace w ++ [EvCreate archive; EvZipWrite archive "bazarr.db";
                               EvZipWrite archive "config.ini"; EvRemove temp] ∧
        member_names wf archive = Some ["bazarr.db"; "config.ini"].
Proof.
  intros archive temp Hd Hc Ht Ha Hne Hnt Hr.
  assert (∀ o, sqlite_request o = false → refuses w o = false) as Hr'.
  { intros o Ho. destruct (refuses w o) eqn:E; [|done]. apply Hr in E. congruence. }
  unfold finish_backup. rewrite bind_run. unfold logging_debug at 1.
  rewrite bind_run, get_backup_path_present by done.
  fold archive. rewrite bind_run. unfold write_archive. rewrite bind_run.
  rewrite ZipFile_w_run by (world_simpl; auto).
  rewrite bind_run.
  assert (String.eqb temp "" = false) as -> by (apply String.eqb_neq, temp_not_empty).
  erewrite ZipFile_write_run; cycle 1.
  { world_simpl. auto. }
  { world_simpl. rewrite lookup_insert_ne by done. exact Ht. }
  { world_simpl. by rewrite lookup_insert_eq. }
  erewrite ZipFile_write_run; cycle 1.
  { world_simpl. auto. }
  { world_simpl. rewrite !lookup_insert_ne by done. exact Hc. }
  { world_simpl. by rewrite lookup_insert_eq. }
  unfold try_except, os_remove_value.
  erewrite os_remove_run; cycle 1.
  { world_simpl. auto. }
  { world_simpl. rewrite !lookup_insert_ne by done. exact Ht. }
  eexists. split; [reflexivity|]. split.
  - world_simpl. by rewrite <- !app_assoc.
  - unfold member_names. world_simpl.
    rewrite lookup_delete_ne by done. by rewrite lookup_insert_eq.
Qed.

(** A whole run in which only SQLite may fail: it ends in one of two
    ways, told apart by whether the online backup ran. *)
Lemma backup_to_zip_run version w :
  environ cfg !! "BAZARR_VERSION" = Some version →
  isdir w (backup_folder cfg) = true →
  isfile w (config_file cfg) = true →
  isdir w (archive_path cfg version w) = false →
  (∀ o, refuses w o = true → sqlite_request o = true) →
  ∃ evs, trace (backup_to_zip cfg w).2 = trace w ++ evs ∧
    ((EvSqliteBackup (database_src_file cfg) (temp_database_path cfg) ∈ evs ∧
      (backup_to_zip cfg w).1 = Ret tt ∧
      member_names (backup_to_zip cfg w).2 (archive_path cfg version w)
        = Some ["bazarr.db"; "config.ini"])
     ∨ (¬ (EvSqliteBackup (database_src_file cfg) (temp_database_path cfg) ∈ evs) ∧
        (backup_to_zip cfg w).1 = Raise TypeError ∧
        member_names (backup_to_zip cfg w).2 (archive_path cfg version w)
          = Some ["config.ini"])).
Proof.
  intros Hv Hd Hc Ha Hr.
  rewrite (backup_to_zip_start version w Hv). cbn zeta.
  set (filename := backup_filename_of _ _).
  set (w0 := add_log _ _ (add_log _ _ w)).
  apply isfile_true in Hc as (c & t & Hc).
  destruct (snapshot_database_cases w0 Hd) as [(w1 & -> & S1)|(wc & b & -> & Sc & Hnt)].
  - destruct (finish_backup_without_database filename w1 c t) as (wf & -> & Ht & Hm).
    + rewrite (isdir_lookup w0 w1); [done|]. by apply S1.
    + rewrite (snapshot_frame _ _ _ S1);
        [done|apply config_file_ne_src|apply config_file_ne_temp].
    + destruct (isdir w1 _) eqn:E; [|done].
      apply (snapshot_no_new_dirs _ _ _ S1) in E.
      change (isdir w (archive_path cfg version w) = true) in E. congruence.
    + apply archive_ne_config_file.
    + destruct S1 as [-> _ _ _]. exact Hr.
    + destruct (snapshot_no_backup_event _ _ S1) as (evs & Hevs & Hno).
      cbn [fst snd]. eexists. split; [rewrite Ht, Hevs; cbn; by rewrite <- app_assoc|].
      right. split; [|done]. intros Hin. apply elem_of_app in Hin as [Hin|Hin].
      * by apply Hno in Hin.
      * apply elem_of_cons in Hin as [?|Hin]; [done|].
        apply elem_of_cons in Hin as [?|Hin]; [done|]. by apply elem_of_nil in Hin.
  - pose proof (archive_ne_temp version w) as Hat.
    assert (backup_folder cfg ≠ temp_database_path cfg) as Hbt.
    { intros E. rewrite <- E in Hnt. rewrite (isdir_lookup w0 wc) in Hnt.
      - change (isdir w (backup_folder cfg) = false) in Hnt. congruence.
      - by apply Sc. }
    edestruct (finish_backup_with_database filename) as (wf & -> & Ht & Hm).
    + unfold isdir. cbn. rewrite lookup_insert_ne by done.
      destruct Sc as [_ _ Hs _]. rewrite Hs; done.
    + cbn. rewrite lookup_insert_ne by (symmetry; apply config_file_ne_temp).
      rewrite (snapshot_frame _ _ _ Sc);
        [exact Hc|apply config_file_ne_src|apply config_file_ne_temp].
    + cbn. by rewrite lookup_insert_eq.
    + unfold isdir. cbn. rewrite lookup_insert_ne by done.
      destruct (nodes wc !! _) as [[]|] eqn:E; try done.
      assert (isdir wc (path_join (backup_folder cfg) filename) = true) as E'
        by (unfold isdir; by rewrite E).
      apply (snapshot_no_new_dirs _ _ _ Sc) in E'.
      change (isdir w (archive_path cfg version w) = true) in E'. congruence.
    + apply archive_ne_config_file.
    + exact Hat.
    + cbn. destruct Sc as [-> _ _ _]. exact Hr.
    + destruct (snapshot_no_backup_event _ _ Sc) as (evs & Hevs & Hno).
      cbn [fst snd].
      eexists. split; [rewrite Ht; cbn; rewrite Hevs; cbn; by rewrite <- !app_assoc|].
      left. split; [|done]. set_solver.
Qed.

End BackupFacts.

(** ** Rotating: [backup_rotation] *)

(** The test one turn of the loop applies to an archive: its modification
    time, read as local time, plus the retention, against the UTC time of
    now. *)
Lemma rotate_file_criterion cfg w file c mtime days :
  nodes w !! file = Some (File c mtime) →
  py_int (backup_retention cfg) = Ret days →
  Z.abs days <= 999999999 →
  in_range (mtime + utcoffset cfg mtime) = true →
  in_range (mtime + utcoffset cfg mtime + days * us_per_day) = true →
  refuses w (OpRemove file) = false →
  isfile (rotate_file cfg file w).2 file
  = negb (mtime + utcoffset cfg mtime + days * us_per_day <? clock w).
Proof.
  intros Hf Hd Hdays Hr1 Hr2 Hrem.
  unfold rotate_file. rewrite bind_run. unfold os_path_getmtime at 1. rewrite Hf.
  rewrite bind_run. unfold lift at 1, datetime_fromtimestamp. rewrite Hr1.
  rewrite bind_run. unfold lift at 1. rewrite Hd.
  rewrite bind_run. unfold lift at 1, timedelta_days.
  assert ((Z.abs days <=? 999999999) = true) as -> by lia.
  rewrite bind_run. unfold lift at 1, datetime_add. rewrite Hr2.
  rewrite bind_run. unfold datetime_utcnow at 1.
  destruct (_ <? clock w); cbn [negb].
  - rewrite bind_run. unfold logging_debug at 1. unfold try_except.
    erewrite os_remove_run; [|done|exact Hf].
    unfold isfile. cbn. by rewrite lookup_delete_eq.
  - unfold isfile, pass. cbn. by rewrite Hf.
Qed.

(** ** Staging: [prepare_restore] *)

Lemma shutil_copy_run src dst w c t :
  refuses w (OpRead src) = false →
  nodes w !! src = Some (File c t) →
  isdir w dst = false →
  src ≠ dst →
  refuses w (OpWrite dst) = false →
  shutil_copy src dst w =
    (Ret dst, add_event (EvCopy src dst) (set_nodes (insert dst (File c (clock w))) w)).
Proof.
  intros Hr Hs Hd Hne Hw. unfold shutil_copy. rewrite Hr, Hs, Hd.
  apply String.eqb_neq in Hne. by rewrite Hne, Hw, Hd.
Qed.

(** Whatever the copied file holds, as long as it is not a zip archive,
    lines 146-163 log the failed extraction and leave [success] true. *)
Lemma stage_archive_succeeds_on_bad_zip cfg src dst w b t :
  nodes w !! src = Some (File (Blob b) t) →
  isdir w dst = false →
  src ≠ dst →
  (∀ o, refuses w o = false) →
  ∃ w', stage_archive cfg src dst w = (Ret true, w') ∧
        trace w' = trace w ++ [EvCopy src dst; EvRemove dst] ∧
        (EXCEPTION, "Unable to extract files from backup archive " +:+ dst) ∈ log w'.
Proof.
  intros Hs Hd Hne Hr. unfold stage_archive, try_finally, try_except_else.
  rewrite (shutil_copy_run src dst w (Blob b) t) by auto.
  rewrite bind_run. unfold try_except at 1.
  rewrite bind_run. unfold ZipFile_r at 1. world_simpl.
  rewrite Hr, lookup_insert_eq. cbn [is_BadZipFile]. unfold logging_exception at 1.
  unfold mret, M_ret. unfold try_except.
  erewrite os_remove_run; [|world_simpl; apply Hr|world_simpl; apply lookup_insert_eq].
  eexists. split; [reflexivity|]. world_simpl. split; [by rewrite <- app_assoc|].
  set_solver.
Qed.

(** ** The file browser *)

Lemma foldl_snoc_map {A B} (f : A → B) (l : list A) (acc : list B) :
  foldl (λ data item, data ++ [f item]) acc l = acc ++ map f l.
Proof.
  revert acc. induction l as [|x l IH]; intros acc; cbn.
  - by rewrite app_nil_r.
  - rewrite IH. by rewrite <- app_assoc.
Qed.

(** * Further run lemmas *)

(** ** Primitives *)

Lemma io_open_w_run p w :
  refuses w (OpWrite p) = false → isdir w p = false →
  io_open_w p w =
    (Ret p, add_event (EvCreate p) (set_nodes (insert p (File (Blob "") (clock w))) w)).
Proof. intros Hr Hd. unfold io_open_w. by rewrite Hr, Hd. Qed.

Lemma shutil_copy_refused src dst w c t :
  refuses w (OpRead src) = false →
  nodes w !! src = Some (File c t) →
  isdir w dst = false →
  refuses w (OpWrite dst) = true →
  shutil_copy src dst w = (Raise OSError, w).
Proof.
  intros Hr Hs Hd Hw. unfold shutil_copy. rewrite Hr, Hs, Hd.
  destruct (String.eqb src dst); [done|]. by rewrite Hw.
Qed.

(** Lookups in a store changed at the fixed paths. *)
Ltac lookup_simpl :=
  world_simpl;
  repeat first
    [ rewrite lookup_insert_eq
    | rewrite lookup_delete_eq
    | rewrite lookup_insert_ne by path_ne
    | rewrite lookup_delete_ne by path_ne ].

(** ** The success path of [restore_from_backup] *)

Section RestoreRuns.

Variable cfg : host.

(** Lines 107-113 when no removal is refused: both side files are gone
    afterwards and nothing else changed. *)
Lemma side_files_removed dd w :
  (∀ o, refuses w o = false) →
  ∃ w', try_except
          (let* shm := os_path_isfile (dd +:+ "-shm") in
           (if shm then os_remove (dd +:+ "-shm") else pass) ;;
           let* wal := os_path_isfile (dd +:+ "-wal") in
           if wal then os_remove (dd +:+ "-wal") else pass)
          is_OSError
          (λ _, logging_exception "Unable to delete SHM and WAL file.") w = (Ret tt, w') ∧
        refuses w' = refuses w ∧ clock w' = clock w ∧
        isfile w' (dd +:+ "-shm") = false ∧ isfile w' (dd +:+ "-wal") = false ∧
        ∀ p, p ≠ dd +:+ "-shm" → p ≠ dd +:+ "-wal" → nodes w' !! p = nodes w !! p.
Proof.
  intros Hr.
  assert (dd +:+ "-shm" ≠ dd +:+ "-wal") as Hne by (by apply string_app_ne).
  unfold try_except. rewrite bind_run. unfold os_path_isfile at 1.
  destruct (isfile w (dd +:+ "-shm")) eqn:E1.
  - destruct (isfile_true _ _ E1) as (c1 & t1 & L1).
    rewrite bind_run, (os_remove_run _ w c1 t1) by auto.
    rewrite bind_run. unfold os_path_isfile at 1.
    set (w1 := add_event _ _).
    assert (isfile w1 (dd +:+ "-wal") = isfile w (dd +:+ "-wal")) as ->.
    { unfold isfile. subst w1. world_simpl. by rewrite lookup_delete_ne. }
    destruct (isfile w (dd +:+ "-wal")) eqn:E2.
    + destruct (isfile_true _ _ E2) as (c2 & t2 & L2).
      rewrite (os_remove_run _ w1 c2 t2);
        [|apply Hr|subst w1; world_simpl; by rewrite lookup_delete_ne].
      eexists. split; [reflexivity|]. subst w1. unfold isfile. world_simpl.
      rewrite lookup_delete_eq, lookup_delete_ne, lookup_delete_eq by done.
      repeat split; try done. intros p H1 H2. by rewrite !lookup_delete_ne.
    + eexists. split; [reflexivity|]. subst w1. unfold isfile in *. world_simpl.
      rewrite lookup_delete_eq, lookup_delete_ne by done.
      repeat split; try done. intros p H1 H2. by rewrite !lookup_delete_ne.
  - rewrite bind_run. unfold pass at 1, mret, M_ret. rewrite bind_run.
    unfold os_path_isfile at 1.
    destruct (isfile w (dd +:+ "-wal")) eqn:E2.
    + destruct (isfile_true _ _ E2) as (c2 & t2 & L2).
      rewrite (os_remove_run _ w c2 t2) by auto.
      eexists. split; [reflexivity|]. unfold isfile in *. world_simpl.
      rewrite lookup_delete_eq, lookup_delete_ne by done.
      repeat split; try done. intros p H1 H2. by rewrite !lookup_delete_ne.
    + eexists. split; [reflexivity|]. repeat split; done.
Qed.

Lemma apply_staged_success w cc tc cd td :
  let rc := restore_config_path cfg in
  let rd := restore_database_path cfg in
  let dc := dest_config_path cfg in
  let dd := dest_database_path cfg in
  nodes w !! rc = Some (File cc tc) →
  nodes w !! rd = Some (File cd td) →
  isdir w dc = false → isdir w dd = false → isdir w (restart_path cfg) = false →
  (∀ o, refuses w o = false) →
  ∃ wf, apply_staged cfg rc dc rd dd w = (Exit 0, wf) ∧
    nodes wf !! dc = Some (File cc (clock w)) ∧
    nodes wf !! dd = Some (File cd (clock w)) ∧
    nodes wf !! rc = None ∧ nodes wf !! rd = None ∧
    isfile wf (dd +:+ "-shm") = false ∧ isfile wf (dd +:+ "-wal") = false ∧
    nodes wf !! restart_path cfg = Some (File (Blob "") (clock w)).
Proof.
  intros rc rd dc dd Hc Hd Hdc Hdd Hrs Hr.
  unfold apply_staged.
  (* the configuration file *)
  rewrite bind_run. unfold try_except at 1. rewrite bind_run.
  rewrite (shutil_copy_run rc dc w cc tc);
    [|apply Hr|exact Hc|exact Hdc|subst rc dc; path_ne|apply Hr].
  rewrite (os_remove_run rc _ cc tc);
    [|apply Hr|subst rc dc; lookup_simpl; exact Hc].
  (* the database *)
  rewrite bind_run. unfold try_except_else at 1. rewrite bind_run.
  rewrite (shutil_copy_run rd dd _ cd td); cycle 1.
  { apply Hr. }
  { subst rc rd dc dd. lookup_simpl. exact Hd. }
  { subst rc rd dc dd. unfold isdir. lookup_simpl. exact Hdd. }
  { subst rd dd. path_ne. }
  { apply Hr. }
  rewrite (os_remove_run rd _ cd td); cycle 1.
  { apply Hr. }
  { subst rc rd dc dd. lookup_simpl. exact Hd. }
  set (w1 := add_event (EvRemove rd) _).
  destruct (side_files_removed dd w1) as (w2 & -> & Hrf & Hck & Hshm & Hwal & Hfr).
  { intros o. subst w1. world_simpl. apply Hr. }
  (* the sentinel *)
  rewrite bind_run. unfold logging_info at 1.
  unfold try_except_else. fold (restart_path cfg).
  assert (∀ p, p ≠ dd +:+ "-shm" → p ≠ dd +:+ "-wal" →
               nodes (add_log INFO "Backup restored successfully. Bazarr will restart." w2) !! p
               = nodes w1 !! p) as Hfr' by (intros; world_simpl; auto).
  rewrite io_open_w_run; cycle 1.
  { world_simpl. rewrite Hrf. subst w1. world_simpl. apply Hr. }
  { unfold isdir. rewrite Hfr' by (subst dd; path_ne).
    subst w1 rc rd dc dd. lookup_simpl. exact Hrs. }
  eexists. split; [reflexivity|].
  unfold isfile in *. world_simpl. rewrite Hck.
  repeat split.
  - rewrite lookup_insert_ne by (subst dc; path_ne).
    rewrite Hfr by (subst dc dd; path_ne). subst w1 rc rd dc dd. lookup_simpl. done.
  - rewrite lookup_insert_ne by (subst dd; path_ne).
    rewrite Hfr by (subst dd; path_ne). subst w1 rc rd dc dd. lookup_simpl. done.
  - rewrite lookup_insert_ne by (subst rc; path_ne).
    rewrite Hfr by (subst rc dd; path_ne). subst w1 rc rd dc dd. lookup_simpl. done.
  - rewrite lookup_insert_ne by (subst rd; path_ne).
    rewrite Hfr by (subst rd dd; path_ne). subst w1 rc rd dc dd. lookup_simpl. done.
  - rewrite lookup_insert_ne by (subst dd; path_ne). exact Hshm.
  - rewrite lookup_insert_ne by (subst dd; path_ne). exact Hwal.
  - rewrite lookup_insert_eq. subst w1. done.
Qed.

End RestoreRuns.

(** ** Extraction and staging *)

(** Extraction of plain members when nothing is refused and no target is
    a directory: every member is written, in order. *)
Lemma extractall_run ms path w :
  (∀ o, refuses w o = false) →
  Forall (λ m : string * content,
            endswith m.1 "/" = false ∧
            isdir w (path_join path (lstrip_sep m.1)) = false) ms →
  ZipFile_extractall ms path w = (Ret tt, foldl (extract_write path) w ms).
Proof.
  revert w. induction ms as [|m ms IH]; intros w Hr Hms; [done|].
  apply Forall_cons in Hms as [[He Hd] Hms].
  unfold ZipFile_extractall. cbn [for_each]. rewrite bind_run.
  unfold ZipFile_extract at 1. rewrite He. unfold ZipFile_extract_file.
  rewrite Hr, Hd. cbn [foldl]. apply IH.
  - intros o. apply Hr.
  - eapply Forall_impl; [exact Hms|]. intros m' [He' Hd']. split; [done|].
    unfold isdir in *. unfold extract_write. world_simpl.
    destruct (decide (path_join path (lstrip_sep m.1) = path_join path (lstrip_sep m'.1)))
      as [->|Hne]; [by rewrite lookup_insert_eq|by rewrite lookup_insert_ne].
Qed.

Lemma extract_fold ms path w :
  let wf := foldl (extract_write path) w ms in
  nodes wf = foldl (stage_member path (clock w)) (nodes w) ms ∧
  trace wf = trace w ++ map (λ m, EvCreate (path_join path (lstrip_sep m.1))) ms ∧
  refuses wf = refuses w ∧ clock wf = clock w ∧ log wf = log w.
Proof.
  revert w. induction ms as [|m ms IH]; intros w; cbn zeta.
  - cbn. by rewrite app_nil_r.
  - cbn [foldl map]. destruct (IH (extract_write path w m)) as (-> & -> & -> & -> & ->).
    unfold extract_write. world_simpl. by rewrite <- app_assoc.
Qed.

Lemma stage_fold_agree ms path t dst (X Y : gmap string node) :
  (∀ p, p ≠ dst → X !! p = Y !! p) →
  ∀ p, p ≠ dst →
    foldl (stage_member path t) X ms !! p = foldl (stage_member path t) Y ms !! p.
Proof.
  revert X Y. induction ms as [|m ms IH]; intros X Y H p Hp; cbn [foldl]; [by apply H|].
  apply IH; [|done]. intros q Hq. unfold stage_member.
  destruct (decide (path_join path (lstrip_sep m.1) = q)) as [->|Hne].
  - by rewrite !lookup_insert_eq.
  - rewrite !lookup_insert_ne by done. by apply H.
Qed.

Section StagingRuns.

Variable cfg : host.

Lemma prepare_restore_run filename ms t w :
  let src := path_join (backup_folder cfg) filename in
  let dst := path_join (restore_dir cfg) filename in
  let target (m : string * content) := path_join (restore_dir cfg) (lstrip_sep m.1) in
  isdir w (backup_folder cfg) = true →
  isdir w (restore_dir cfg) = true →
  nodes w !! src = Some (File (Zip ms) t) →
  isdir w dst = false →
  src ≠ dst →
  Forall (λ m, endswith m.1 "/" = false ∧ isdir w (target m) = false) ms →
  (∀ o, refuses w o = false) →
  ∃ wf, prepare_restore cfg filename w = (Ret tt, wf) ∧
    refuses wf = refuses w ∧ clock wf = clock w ∧
    nodes wf = delete dst (foldl (stage_member (restore_dir cfg) (clock w)) (nodes w) ms) ∧
    trace wf = trace w ++ [EvCopy src dst] ++ map (λ m, EvCreate (target m)) ms
                       ++ [EvRemove dst; EvRestart].
Proof.
  intros src dst target Hb Hrd Hs Hd Hne Hms Hr. subst src dst target.
  set (src := path_join (backup_folder cfg) filename) in *.
  set (dst := path_join (restore_dir cfg) filename) in *.
  unfold prepare_restore.
  rewrite bind_run, get_backup_path_present by done.
  rewrite bind_run, get_restore_path_present by done.
  rewrite bind_run. unfold stage_archive, try_finally, try_except_else.
  fold src dst.
  set (w0 := add_log _ _ (add_log _ _ w)).
  rewrite (shutil_copy_run src dst w0 (Zip ms) t); [|apply Hr|exact Hs|exact Hd|exact Hne|apply Hr].
  set (w1 := add_event _ _).
  rewrite bind_run. unfold try_except at 1. rewrite bind_run.
  unfold ZipFile_r at 1.
  assert (refuses w1 (OpRead dst) = false) as -> by apply Hr.
  assert (nodes w1 !! dst = Some (File (Zip ms) (clock w))) as ->
    by (subst w1 w0; world_simpl; by rewrite lookup_insert_eq).
  rewrite bind_run, get_restore_path_present; cycle 1.
  { unfold isdir in *. subst w1 w0. world_simpl.
    destruct (decide (dst = restore_dir cfg)) as [E|E].
    - rewrite E in Hd. congruence.
    - by rewrite lookup_insert_ne. }
  set (w1' := add_log _ _ w1).
  rewrite extractall_run; cycle 1.
  { intros o. apply Hr. }
  { eapply Forall_impl; [exact Hms|]. intros m [He Hm]. split; [done|].
    unfold isdir in *. subst w1' w1 w0. world_simpl.
    destruct (decide (dst = path_join (restore_dir cfg) (lstrip_sep m.1))) as [E|E].
    - rewrite <- E. by rewrite lookup_insert_eq.
    - by rewrite lookup_insert_ne. }
  destruct (extract_fold ms (restore_dir cfg) w1') as (Hn & Ht & Hrf & Hc & Hl).
  set (w2 := foldl (extract_write _) _ ms) in *.
  unfold mret, M_ret. rewrite remove_logged.
  (* the copy is still there, or a member has replaced it *)
  destruct (removable w2 dst) eqn:Hrm.
  - rewrite bind_run. unfold logging_debug at 1. unfold webserver_restart.
    eexists. split; [reflexivity|]. world_simpl. rewrite Hn, Ht, Hrf, Hc.
    split; [done|]. split; [done|]. split.
    + apply map_eq. intros p. destruct (decide (p = dst)) as [->|Hp].
      * by rewrite !lookup_delete_eq.
      * rewrite !lookup_delete_ne by done.
        apply (stage_fold_agree ms _ _ dst); [|done].
        intros q Hq. subst w1' w1 w0. world_simpl. by rewrite lookup_insert_ne.
    + subst w1' w1 w0. world_simpl. by rewrite <- !app_assoc.
  - exfalso. unfold removable in Hrm. rewrite Hrf in Hrm.
    assert (refuses w1' (OpRemove dst) = false) as E by apply Hr.
    rewrite E in Hrm. cbn in Hrm.
    unfold isfile in Hrm. rewrite Hn in Hrm.
    assert (∀ ms' X, (∃ c t', X !! dst = Some (File c t')) →
       ∃ c t', foldl (stage_member (restore_dir cfg) (clock w1')) X ms' !! dst
               = Some (File c t')) as Hfile.
    { induction ms' as [|m' ms' IH]; intros X HX; [done|]. cbn [foldl]. apply IH.
      unfold stage_member.
      destruct (decide (path_join (restore_dir cfg) (lstrip_sep m'.1) = dst)) as [->|E'].
      - rewrite lookup_insert_eq. eauto.
      - by rewrite lookup_insert_ne. }
    destruct (Hfile ms (nodes w1')) as (c & t' & Hf).
    { subst w1' w1 w0. world_simpl. rewrite lookup_insert_eq. eauto. }
    rewrite Hf in Hrm. done.
Qed.

End StagingRuns.

(** ** Formatting *)

Lemma format_small_int z :
  Z.abs z < 1000 → format_number_1f (PyInt z) = Ret (pretty z +:+ ".0").
Proof.
  intros Hz.
  assert (forallb (λ z, match format_number_1f (PyInt z) with
                        | Ret s => String.eqb s (pretty z +:+ ".0")
                        | _ => false
                        end) (seqZ (-999) 1999) = true) as H by (vm_compute; reflexivity).
  rewrite forallb_forall in H. specialize (H z).
  assert (In z (seqZ (-999) 1999)) as Hin by (apply list_elem_of_In, elem_of_seqZ; lia).
  specialize (H Hin).
  destruct (format_number_1f (PyInt z)) as [s| |]; [|done..].
  f_equal. by apply String.eqb_eq.
Qed.

(** ** Sorting and listing *)

Lemma insert_by_key_perm x l : insert_by_key x l ≡ₚ x :: l.
Proof.
  induction l as [|y l IH]; cbn; [done|].
  destruct (x.1 <=? y.1); [done|]. rewrite IH. apply Permutation_swap.
Qed.

Lemma sort_by_key_perm l : sort_by_key l ≡ₚ l.
Proof.
  induction l as [|x l IH]; cbn; [done|].
  unfold sort_by_key in *. cbn. by rewrite insert_by_key_perm, IH.
Qed.





Lemma map_M_elems {A B} (f : A → M B) xs w ys :
  (map_M f xs w).1 = Ret ys →
  ∀ y, y ∈ ys → ∃ x w', x ∈ xs ∧ (f x w').1 = Ret y.
Proof.
  revert w ys. induction xs as [|x xs IH]; intros w ys.
  - intros [= <-] y Hy. by apply elem_of_nil in Hy.
  - cbn [map_M]. rewrite bind_run.
    destruct (f x w) as [[y0|e|c] w1] eqn:E; [|done..].
    rewrite bind_run. specialize (IH w1).
    destruct (map_M f xs w1) as [[ys'|e|c] w2]; [|done..].
    intros [= <-] y Hy. apply elem_of_cons in Hy as [->|Hy].
    + exists x, w. split; [by left|]. by rewrite E.
    + destruct (IH ys' eq_refl y Hy) as (x' & w' & Hx & Hf).
      exists x', w'. split; [by right|done].
Qed.

Lemma list_sort_elems key l w l' :
  (list_sort key l w).1 = Ret l' → ∀ p, p ∈ l' → p ∈ l.
Proof.
  unfold list_sort. rewrite bind_run.
  destruct (map_M key l w) as [[keys|e|c] w1] eqn:E; [|done..].
  cbn. intros [= <-] p Hp.
  apply list_elem_of_fmap in Hp as ([k q] & -> & Hq).
  rewrite sort_by_key_perm in Hq. cbn. by apply elem_of_zip_r in Hq.
Qed.

Section ListingRuns.

Variable cfg : host.


Lemma get_backup_path_value w d :
  (get_backup_path cfg w).1 = Ret d → d = backup_folder cfg.
Proof.
  unfold get_backup_path, bind, os_path_isdir, os_makedirs, pass, mret, M_ret.
  repeat case_match; simplify_eq/=; congruence.
Qed.


End ListingRuns.

(** ** Rotation *)

Section RotationRuns.

Variable cfg : host.
Variable days : Z.
Hypothesis Hdays : py_int (backup_retention cfg) = Ret days.
Hypothesis Habs : Z.abs days <= 999999999.



End RotationRuns.



Section RotationFrame.

Variable cfg : host.


End RotationFrame.

(** ** The archive [backup_to_zip] writes *)



Section BackupRuns.

Variable cfg : host.




End BackupRuns.

(** ** Names of archives *)

Lemma split_star_app (pre suf : string) :
  has_magic pre = false → split_star (pre +:+ String "*" suf) = Some (pre, suf).
Proof.
  induction pre as [|c pre IH]; [done|].
  cbn [has_magic]. intros H.
  change (split_star (String c (pre +:+ String "*" suf)) = Some (String c pre, suf)).
  cbn [split_star].
  destruct (Ascii.eqb c "*"); [done|].
  destruct (Ascii.eqb c "?"); [done|]. destruct (Ascii.eqb c "["); [done|].
  by rewrite IH.
Qed.

Lemma has_magic_app (a b : string) :
  has_magic (a +:+ b) = has_magic a || has_magic b.
Proof.
  induction a as [|c a IH]; [done|].
  change (has_magic (String c (a +:+ b)) = has_magic (String c a) || has_magic b).
  cbn [has_magic]. rewrite IH. by repeat case_match.
Qed.

Lemma has_magic_dir_prefix (a : string) : has_magic (dir_prefix a) = has_magic a.
Proof.
  unfold dir_prefix. destruct (String.eqb a "" || endswith a "/"); [done|].
  rewrite has_magic_app. cbn. by rewrite orb_false_r.
Qed.

Lemma strip_prefix_app (pre p rest : string) :
  strip_prefix pre p = Some rest → p = pre +:+ rest.
Proof.
  revert p. induction pre as [|c pre IH]; intros p; cbn.
  - by intros [= ->].
  - destruct p as [|b p]; [done|].
    destruct (Ascii.eqb_spec c b) as [->|]; [|done].
    intros H. apply IH in H. rewrite H. done.
Qed.

Lemma strip_prefix_self (pre rest : string) : strip_prefix pre (pre +:+ rest) = Some rest.
Proof.
  induction pre as [|c pre IH]; [done|].
  change (strip_prefix (String c pre) (String c (pre +:+ rest)) = Some rest).
  cbn. by rewrite Ascii.eqb_refl.
Qed.

Lemma endswith_app (x s : string) : endswith (x +:+ s) s = true.
Proof.
  induction x as [|c x IH].
  - change (endswith s s = true). destruct s; unfold endswith; by rewrite String.eqb_refl.
  - change (endswith (String c (x +:+ s)) s = true). cbn [endswith].
    rewrite IH. by destruct (String.eqb _ _).
Qed.

Lemma has_sep_app (a b : string) : has_sep (a +:+ b) = has_sep a || has_sep b.
Proof.
  induction a as [|c a IH]; [done|].
  change (has_sep (String c (a +:+ b)) = has_sep (String c a) || has_sep b).
  cbn [has_sep]. rewrite IH. by destruct (Ascii.eqb c "/").
Qed.

Lemma last_char_has_sep (d : string) : last_char d = Some "/"%char → has_sep d = true.
Proof.
  induction d as [|c d IH]; [done|]. cbn.
  destruct d as [|c' d'].
  - intros [= ->]. done.
  - intros H. rewrite IH by done. by destruct (Ascii.eqb c "/").
Qed.

Lemma basename_no_sep (name : string) : has_sep name = false → basename name = name.
Proof.
  destruct name as [|a name]; [done|]. cbn [has_sep basename].
  destruct (Ascii.eqb a "/"); [done|]. by intros ->.
Qed.

Lemma basename_app (d name : string) :
  d = "" ∨ last_char d = Some "/"%char → has_sep name = false →
  basename (d +:+ name) = name.
Proof.
  intros Hd Hn. induction d as [|c d IH].
  - by apply basename_no_sep.
  - destruct Hd as [Hd|Hd]; [done|].
    change (basename (String c (d +:+ name)) = name). cbn [basename].
    rewrite has_sep_app, Hn, orb_false_r.
    destruct d as [|c' d'].
    + cbn in Hd. injection Hd as ->. cbn. done.
    + rewrite last_char_has_sep by done. apply IH. by right.
Qed.

Lemma dir_prefix_shape (a : string) :
  dir_prefix a = "" ∨ last_char (dir_prefix a) = Some "/"%char.
Proof.
  unfold dir_prefix. destruct (String.eqb_spec a "") as [->|Ha]; [by left|].
  cbn. destruct (endswith a "/") eqn:E.
  - right. by apply endswith_sep_last.
  - right. by rewrite last_char_app.
Qed.

Section ArchiveNames.

Variable cfg : host.

Lemma matched_name p :
  has_magic (backup_folder cfg) = false →
  glob_match (backup_pattern cfg) p = true →
  path_join (backup_folder cfg) (basename p) = p.
Proof.
  intros Hm. unfold backup_pattern. rewrite path_join_relative by done.
  unfold glob_match.
  change "bazarr_backup_v*.zip" with ("bazarr_backup_v" +:+ String "*" ".zip").
  rewrite <- string_app_assoc, split_star_app; cycle 1.
  { by rewrite has_magic_app, has_magic_dir_prefix, Hm. }
  destruct (strip_prefix _ p) as [rest|] eqn:E; [|done].
  apply strip_prefix_app in E. intros [_ Hs%negb_true_iff]%andb_true_iff.
  rewrite E, string_app_assoc.
  rewrite basename_app; [| apply dir_prefix_shape |by rewrite has_sep_app, Hs].
  by rewrite path_join_relative.
Qed.

End ArchiveNames.

(** * The claims *)

Import Examples.

(** ** C1 *)

(** C1, as stated, fails: with only [config.ini] staged the run removes
    that file, so it is not free of file mutations. *)
Lemma partial_restore_removes_staged_file :
  ¬ partial_restore_is_noop (host_utc (SettingInt 1)) partial_staging.
Proof.
  intros H. destruct H as [_ Ht].
  - vm_compute. discriminate.
  - vm_compute in Ht. discriminate.
Qed.

(** C1, amended: when exactly one of the two files is staged (in an
    existing staging directory), [restore_from_backup] returns, copies
    and creates nothing, and its only changes are those of the final
    cleanup (lines 132-140): each staged path that holds a file whose
    removal the operating system permits is removed. *)
Theorem partial_restore_only_cleans cfg w :
  isdir w (restore_dir cfg) = true →
  isfile w (restore_config_path cfg) ≠ isfile w (restore_database_path cfg) →
  let rc := restore_config_path cfg in
  let rd := restore_database_path cfg in
  let r := restore_from_backup cfg w in
  r.1 = Ret tt ∧
  nodes r.2 = (if removable w rd then delete rd else id)
                ((if removable w rc then delete rc else id) (nodes w)) ∧
  trace r.2 = trace w ++ (if removable w rc then [EvRemove rc] else [])
                      ++ (if removable w rd then [EvRemove rd] else []).
Proof.
  intros Hd Hone. cbn zeta.
  rewrite restore_from_backup_present by done. cbn zeta.
  set (rc := restore_config_path cfg) in *. set (rd := restore_database_path cfg) in *.
  assert (isfile w rc && isfile w rd = false) as ->
    by (destruct (isfile w rc), (isfile w rd); done).
  assert (isfile w rc || isfile w rd = true) as ->
    by (destruct (isfile w rc), (isfile w rd); done).
  unfold bind, logging_debug. subst rc rd. rewrite remove_staged_run.
  unfold removable, isfile. cbn.
  repeat case_match; simplify_eq/=; rewrite ?app_nil_r, <-?app_assoc; done.
Qed.

Lemma partial_restore_only_cleans_witness :
  let h := host_utc (SettingInt 1) in
  let r := restore_from_backup h partial_staging in
  r.1 = Ret tt ∧
  nodes r.2 = delete (restore_config_path h) (nodes partial_staging) ∧
  trace r.2 = [EvRemove (restore_config_path h)].
Proof.
  apply (partial_restore_only_cleans (host_utc (SettingInt 1)) partial_staging).
  - vm_compute. reflexivity.
  - vm_compute. discriminate.
Defined.

(** ** C2 *)

(** C2 fails on the code: when the copied archive is not a zip file (and
    nothing else goes wrong), [prepare_restore] logs the failed
    extraction, removes the copy and still asks the web server to
    restart: [success] is set after the inner [try] statement, whether or
    not [BadZipFile] was caught. *)
Theorem prepare_restore_restarts_on_bad_zip cfg filename w b t :
  let src := path_join (backup_folder cfg) filename in
  let dst := path_join (restore_dir cfg) filename in
  isdir w (backup_folder cfg) = true →
  isdir w (restore_dir cfg) = true →
  nodes w !! src = Some (File (Blob b) t) →
  isdir w dst = false →
  src ≠ dst →
  (∀ o, refuses w o = false) →
  let r := prepare_restore cfg filename w in
  r.1 = Ret tt ∧
  trace r.2 = trace w ++ [EvCopy src dst; EvRemove dst; EvRestart] ∧
  (EXCEPTION, "Unable to extract files from backup archive " +:+ dst) ∈ log r.2.
Proof.
  intros src dst Hb Hrd Hs Hd Hne Hr. cbn zeta.
  unfold prepare_restore.
  rewrite bind_run, get_backup_path_present by done.
  rewrite bind_run, get_restore_path_present by done.
  fold src dst. rewrite bind_run.
  set (w0 := add_log _ _ (add_log _ _ w)).
  destruct (stage_archive_succeeds_on_bad_zip cfg src dst w0 b t Hs Hd Hne Hr)
    as (w' & -> & Ht & Hl).
  rewrite bind_run. unfold logging_debug, webserver_restart. world_simpl.
  split; [done|]. split.
  - rewrite Ht. cbn. by rewrite <- app_assoc.
  - set_solver.
Qed.

Lemma prepare_restore_restarts_on_bad_zip_witness :
  let h := host_utc (SettingInt 1) in
  let r := prepare_restore h corrupt_name corrupt_archive in
  r.1 = Ret tt ∧
  trace r.2 = [EvCopy ("/config/backup/" +:+ corrupt_name)
                 ("/config/restore/" +:+ corrupt_name);
               EvRemove ("/config/restore/" +:+ corrupt_name);
               EvRestart] ∧
  (EXCEPTION, "Unable to extract files from backup archive /config/restore/"
              +:+ corrupt_name) ∈ log r.2.
Proof.
  apply (prepare_restore_restarts_on_bad_zip (host_utc (SettingInt 1)) corrupt_name
           corrupt_archive "not a zip" 5).
  - vm_compute. reflexivity.
  - vm_compute. reflexivity.
  - vm_compute. reflexivity.
  - vm_compute. reflexivity.
  - vm_compute. discriminate.
  - reflexivity.
Defined.

(** ** C3 *)

(** C3 fails on the code: in every state in which only the snapshot step
    fails (the backup directory exists, [config.ini] is a regular file,
    the archive can be written and the operating system refuses nothing
    but SQLite's requests), [backup_to_zip] raises [TypeError] to its
    caller: line 83 hands [None] to [os.remove] and line 84 catches
    [OSError] only. *)
Theorem backup_to_zip_raises_after_failed_snapshot cfg version w :
  environ cfg !! "BAZARR_VERSION" = Some version →
  isdir w (backup_folder cfg) = true →
  isfile w (config_file cfg) = true →
  isdir w (archive_path cfg version w) = false →
  (∀ o, refuses w o = true → sqlite_request o = true) →
  (∀ evs, trace (backup_to_zip cfg w).2 = trace w ++ evs →
          ¬ (EvSqliteBackup (database_src_file cfg) (temp_database_path cfg) ∈ evs)) →
  (backup_to_zip cfg w).1 = Raise TypeError.
Proof.
  intros Hv Hd Hc Ha Hr Hfail.
  destruct (backup_to_zip_run cfg version w Hv Hd Hc Ha Hr)
    as (evs & Ht & [(Hin & _) | (_ & Hraise & _)]); [|done].
  by destruct (Hfail evs Ht).
Qed.

Lemma backup_to_zip_raises_after_failed_snapshot_witness :
  (backup_to_zip (host_utc (SettingInt 1)) database_locked).1 = Raise TypeError.
Proof.
  apply (backup_to_zip_raises_after_failed_snapshot (host_utc (SettingInt 1)) "1.4.0"
           database_locked).
  - vm_compute. reflexivity.
  - vm_compute. reflexivity.
  - vm_compute. reflexivity.
  - vm_compute. reflexivity.
  - intros o. destruct o; cbn; done.
  - intros evs H. vm_compute in H. subst evs. intros Hin.
    repeat (apply elem_of_cons in Hin as [Hin|Hin]; [discriminate|]).
    by apply elem_of_nil in Hin.
Defined.

(** ** C4 *)




(** ** C5 *)

(** C5: unless both the staged configuration file and the staged
    database file are present, [restore_from_backup] performs no copy at
    all and leaves the live configuration and database paths as they
    were. *)
Theorem restore_needs_both_staged cfg w :
  isfile w (restore_config_path cfg) && isfile w (restore_database_path cfg) = false →
  let w' := (restore_from_backup cfg w).2 in
  (∃ evs, trace w' = trace w ++ evs ∧ ∀ src dst, EvCopy src dst ∉ evs) ∧
  nodes w' !! dest_config_path cfg = nodes w !! dest_config_path cfg ∧
  nodes w' !! dest_database_path cfg = nodes w !! dest_database_path cfg.
Proof.
  intros Hnot. cbn zeta.
  destruct (restore_without_both cfg w Hnot) as [_ _ _ (evs & Ht & HQ & Hn & _)].
  rewrite Forall_forall in HQ.
  split; [|split].
  - exists evs. split; [done|]. intros src dst Hin.
    destruct (HQ _ Hin) as [?|[?|?]]; done.
  - apply Hn. intros ev Hin Ht'. destruct (HQ _ Hin) as [-> | [-> | ->]]; cbn in Ht';
      simplify_eq; revert Ht'; path_ne.
  - apply Hn. intros ev Hin Ht'. destruct (HQ _ Hin) as [-> | [-> | ->]]; cbn in Ht';
      simplify_eq; revert Ht'; path_ne.
Qed.

Lemma restore_needs_both_staged_witness :
  let h := host_utc (SettingInt 1) in
  let w' := (restore_from_backup h partial_staging).2 in
  (∃ evs, trace w' = trace partial_staging ++ evs ∧ ∀ src dst, EvCopy src dst ∉ evs) ∧
  nodes w' !! dest_config_path h = nodes partial_staging !! dest_config_path h ∧
  nodes w' !! dest_database_path h = nodes partial_staging !! dest_database_path h.
Proof.
  apply (restore_needs_both_staged (host_utc (SettingInt 1)) partial_staging).
  vm_compute. reflexivity.
Defined.

(** ** C6 *)




(** The success path on an example: with both files staged and nothing
    refused, the live files receive the staged contents, the staged
    files are gone, the sentinel is written and the process exits. *)
Lemma restore_success_example :
  let r := restore_from_backup (host_utc (SettingInt 1)) full_staging in
  r.1 = Exit 0 ∧
  nodes r.2 !! "/config/config/config.ini" = Some (File (Blob "[general]") 100) ∧
  nodes r.2 !! "/config/db/bazarr.db" = Some (File (Blob "new db") 100) ∧
  nodes r.2 !! "/config/restore/config.ini" = None ∧
  nodes r.2 !! "/config/restore/bazarr.db" = None ∧
  nodes r.2 !! "/config/bazarr.restart" = Some (File (Blob "") 100).
Proof. vm_compute. repeat split; reflexivity. Qed.

(** ** C7 *)

(** C7 fails on the code: line 183 compares the modification time read
    as local time ([datetime.fromtimestamp]) with the UTC time of now
    ([datetime.utcnow]).  With a retention of one day, on a host five
    hours west of UTC an archive written 20 hours ago (newer than the
    window) is deleted, and on a host two hours east of UTC an archive
    written 25 hours ago (older than the window) is kept. *)
Theorem rotation_compares_local_time_with_utc :
  (let r := backup_rotation (host_east (-5) (SettingInt 1)) one_archive_20h in
   r.1 = Ret tt ∧
   isfile one_archive_20h archive_20h = true ∧
   isfile r.2 archive_20h = false ∧
   trace r.2 = [EvGlob "/config/backup/bazarr_backup_v*.zip"; EvRemove archive_20h]) ∧
  (let r := backup_rotation (host_east 2 (SettingInt 1)) one_archive_25h in
   r.1 = Ret tt ∧
   isfile r.2 archive_25h = true ∧
   trace r.2 = [EvGlob "/config/backup/bazarr_backup_v*.zip"]).
Proof. vm_compute. repeat split; reflexivity. Qed.

(** On a host whose local time is UTC the same two archives are treated
    as the retention window says. *)
Lemma rotation_on_utc_host :
  (let r := backup_rotation (host_utc (SettingInt 1)) one_archive_20h in
   r.1 = Ret tt ∧ isfile r.2 archive_20h = true) ∧
  (let r := backup_rotation (host_utc (SettingInt 1)) one_archive_25h in
   r.1 = Ret tt ∧ isfile r.2 archive_25h = false).
Proof. vm_compute. repeat split; reflexivity. Qed.

(** ** C8 *)

(** C8, as stated, fails: the unit is followed by the suffix ["B"], so
    1500 is rendered as ["1.5 KB"], not ["1.5 K"]. *)
Lemma sizeof_fmt_1500_is_not_1_5_K : sizeof_fmt (PyInt 1500) "B" ≠ Ret "1.5 K".
Proof. vm_compute. discriminate. Qed.

(** C8, amended: [sizeof_fmt(999)] is ["999.0 B"], [sizeof_fmt(1500)] is
    ["1.5 KB"] and [sizeof_fmt(10**18)] is ["1.0 EB"]: base-1000 units
    [B], [KB], [MB], [GB], [TB], [PB], [EB], [ZB], then [YB]. *)
Theorem sizeof_fmt_examples :
  sizeof_fmt (PyInt 999) "B" = Ret "999.0 B" ∧
  sizeof_fmt (PyInt 1500) "B" = Ret "1.5 KB" ∧
  sizeof_fmt (PyInt (10 ^ 18)) "B" = Ret "1.0 EB".
Proof. vm_compute. repeat split; reflexivity. Qed.

(** The whole ladder, one value per unit. *)
Lemma sizeof_fmt_ladder :
  map (λ k, sizeof_fmt (PyInt (2 * 1000 ^ k)) "B") [0; 1; 2; 3; 4; 5; 6; 7; 8; 9]
  = map Ret ["2.0 B"; "2.0 KB"; "2.0 MB"; "2.0 GB"; "2.0 TB"; "2.0 PB"; "2.0 EB";
             "2.0 ZB"; "2.0 YB"; "2000.0 YB"].
Proof. vm_compute. reflexivity. Qed.

(** ** C9 *)

(** C9: when the provider returns no result or raises an error (an
    exception deriving from [Exception]), the handler returns the empty
    list and raises nothing; and every entry of a list it returns has
    [children] set and carries the name and path of one of the
    directories the provider reported. *)
Theorem get_is_fail_soft
    (browse_radarr_filesystem : string → outcome (option FilesRadarr.provider_result))
    (path : string) :
  let get := FilesRadarr.get browse_radarr_filesystem in
  (browse_radarr_filesystem path = Ret None → get path = Ret []) ∧
  (∀ e, browse_radarr_filesystem path = Raise e → is_Exception e = true →
        get path = Ret []) ∧
  (∀ data, get path = Ret data →
     ∀ entry, entry ∈ data →
       FilesRadarr.children entry = true ∧
       ∃ result item,
         browse_radarr_filesystem path = Ret (Some result) ∧
         item ∈ FilesRadarr.directories result ∧
         FilesRadarr.name entry = FilesRadarr.item_name item ∧
         FilesRadarr.path entry = FilesRadarr.item_path item).
Proof.
  cbn zeta. unfold FilesRadarr.get, FilesRadarr.browse_or_none.
  unfold mbind, outcome_bind.
  split; [|split].
  - by intros ->.
  - intros e -> He. by rewrite He.
  - intros data.
    destruct (browse_radarr_filesystem path) as [[result|]|e|c] eqn:E; cbn.
    + rewrite foldl_snoc_map. cbn. intros [= <-] entry Hin.
      apply list_elem_of_fmap in Hin as (item & -> & Hitem). cbn.
      split; [done|]. by exists result, item.
    + intros [= <-] entry Hin. by apply elem_of_nil in Hin.
    + destruct (is_Exception e); cbn; [|done].
      intros [= <-] entry Hin. by apply elem_of_nil in Hin.
    + done.
Qed.

Lemma get_is_fail_soft_witness :
  FilesRadarr.get provider_two "/missing" = Ret [] ∧
  FilesRadarr.get provider_two "/gone" = Ret [] ∧
  FilesRadarr.children (FilesRadarr.Entry "tv" true "/tv") = true.
Proof.
  split; [|split].
  - apply (proj1 (get_is_fail_soft provider_two "/missing")). reflexivity.
  - apply (proj1 (proj2 (get_is_fail_soft provider_two "/gone")) OSError); reflexivity.
  - apply (proj2 (proj2 (get_is_fail_soft provider_two "/"))
             [FilesRadarr.Entry "movies" true "/movies"; FilesRadarr.Entry "tv" true "/tv"]).
    + reflexivity.
    + apply elem_of_cons. right. apply elem_of_cons. by left.
Defined.

(** ** C10 *)



(** * Further properties of the code *)

(** X1: [get_restore_path] (lines 25-30) either returns
    [<config_dir>/restore] with that directory in place, or raises
    [OSError] from [os.makedirs] and leaves the world as it found it. *)
Theorem get_restore_path_result cfg w :
  let r := get_restore_path cfg w in
  (r.1 = Ret (restore_dir cfg) ∧ isdir r.2 (restore_dir cfg) = true) ∨
  (r.1 = Raise OSError ∧ r.2 = w ∧ isdir w (restore_dir cfg) = false).
Proof.
  cbn zeta. unfold get_restore_path, bind, os_path_isdir, os_makedirs, pass.
  fold (restore_dir cfg).
  destruct (isdir w (restore_dir cfg)) eqn:Hd; cbn [negb].
  - left. cbn. split; [done|]. unfold isdir in *. by world_simpl.
  - destruct (refuses w (OpMakedirs (restore_dir cfg))); [by right|].
    destruct (nodes w !! restore_dir cfg) eqn:Hn; [by right|].
    left. cbn. split; [done|]. unfold isdir. world_simpl. by rewrite lookup_insert_eq.
Qed.



(** X3: every entry [get_backup_files(fullpath=False)]
    returns (lines 38-45) has type ["backup"], and its [filename], joined
    to the backup directory again as [delete_backup_file] and
    [prepare_restore] do, is a path of the store that matches the backup
    pattern (for a backup directory whose name holds no wildcard). *)
Theorem listed_names_are_archives cfg w infos :
  has_magic (backup_folder cfg) = false →
  (get_backup_files cfg false w).1 = Ret infos →
  ∀ i, i ∈ infos →
    info_type i = "backup" ∧
    glob_match (backup_pattern cfg) (path_join (backup_folder cfg) (info_filename i)) = true ∧
    is_Some (nodes (get_backup_files cfg false w).2
               !! path_join (backup_folder cfg) (info_filename i)).
Proof.
  intros Hm. destruct (get_backup_files cfg false w) as [o wf] eqn:Erun.
  cbn [fst snd]. intros ->. revert Erun.
  unfold get_backup_files. rewrite bind_run.
  destruct (get_backup_path cfg w) as [[d|e|c] w1] eqn:E; [|done..].
  assert (d = backup_folder cfg) as -> by (eapply get_backup_path_value; by rewrite E).
  fold (backup_pattern cfg). rewrite bind_run. unfold glob at 1.
  set (fl := List.filter _ _). set (w2 := add_event _ w1).
  change (bind (list_sort os_path_getmtime fl) _)
    with (listing_tail cfg false fl).
  pose proof (listing_tail_performs cfg false fl w2) as [_ _ _ (evs & _ & HQ & Hn & _)].
  intros Erun. rewrite Erun in Hn. cbn [snd] in Hn.
  revert Erun. unfold listing_tail. rewrite bind_run.
  destruct (list_sort os_path_getmtime fl w2) as [[l|e|c] w3] eqn:E3; [|done..].
  intros Hret i Hi.
  lazymatch type of Hret with
  | map_M ?f _ _ = _ =>
      destruct (map_M_elems f l w3 infos) with i as (x & w' & Hx & Hf);
        [by rewrite Hret|exact Hi|]
  end.
  cbv beta in Hf.
  assert (x ∈ fl) as Hxf by (eapply list_sort_elems; [by rewrite E3|done]).
  apply list_elem_of_In, filter_In in Hxf as [Hk Hg].
  assert (i = BackupInfo "backup" (basename x) (info_size i) (info_date i)) as ->.
  { revert Hf. rewrite bind_run. destruct (os_path_getsize cfg x w') as [[sz|?|?] ?]; [|done..].
    rewrite bind_run. unfold lift at 1.
    destruct (sizeof_fmt_B (PyInt sz)) as [size|?|?]; [|done..].
    rewrite bind_run. destruct (os_path_getmtime x w0) as [[mt|?|?] ?]; [|done..].
    rewrite bind_run. unfold lift at 1.
    destruct (datetime_fromtimestamp cfg mt) as [dt|?|?]; [|done..].
    by intros [= <-]. }
  cbn [info_type info_filename]. rewrite matched_name by done.
  split; [done|]. split; [done|].
  rewrite Hn.
  - apply list_elem_of_In, list_elem_of_fmap in Hk as ([q n] & -> & Hq).
    apply elem_of_map_to_list in Hq. by exists n.
  - intros ev Hev. rewrite Forall_forall in HQ. by apply HQ in Hev.
Qed.

Lemma listed_names_are_archives_witness :
  let h := host_utc (SettingInt 1) in
  let i := BackupInfo "backup" saved_name "512.0 B" "2024.05.01_12.00.00" in
  info_type i = "backup" ∧
  glob_match (backup_pattern h) (path_join (backup_folder h) (info_filename i)) = true ∧
  is_Some (nodes (get_backup_files h false one_archive_20h).2
             !! path_join (backup_folder h) (info_filename i)).
Proof.
  apply (listed_names_are_archives (host_utc (SettingInt 1)) one_archive_20h
           [BackupInfo "backup" saved_name "512.0 B" "2024.05.01_12.00.00"]).
  - vm_compute. reflexivity.
  - vm_compute. reflexivity.
  - by left.
Defined.

(** X4: without [BAZARR_VERSION] in the environment,
    [backup_to_zip] raises [KeyError] at line 51, before it has logged or
    touched anything. *)
Theorem backup_needs_version cfg w :
  environ cfg !! "BAZARR_VERSION" = None →
  backup_to_zip cfg w = (Raise KeyError, w).
Proof.
  intros H. unfold backup_to_zip. rewrite bind_run. unfold datetime_now at 1.
  rewrite bind_run. unfold os_environ. by rewrite H.
Qed.

Lemma backup_needs_version_witness :
  backup_to_zip host_no_version live = (Raise KeyError, live).
Proof. apply (backup_needs_version host_no_version live). vm_compute. reflexivity. Defined.



(** X6: the name [backup_to_zip] gives its archive
    (line 51) matches the pattern [get_backup_files] globs for (line 34),
    so that a new backup is listed and rotated, as long as neither the
    version nor the time stamp holds a separator. *)
Theorem new_archive_is_listed cfg version w :
  has_magic (backup_folder cfg) = false →
  has_sep version = false →
  has_sep (strftime cfg "%Y.%m.%d_%H.%M.%S" (clock w + utcoffset cfg (clock w))) = false →
  glob_match (backup_pattern cfg) (archive_path cfg version w) = true.
Proof.
  intros Hm Hv Hs. unfold backup_pattern, archive_path, backup_filename_of.
  rewrite !path_join_relative by done.
  unfold glob_match.
  change "bazarr_backup_v*.zip" with ("bazarr_backup_v" +:+ String "*" ".zip").
  rewrite <- string_app_assoc, split_star_app
    by (by rewrite has_magic_app, has_magic_dir_prefix, Hm).
  rewrite <- (string_app_assoc (dir_prefix _) "bazarr_backup_v"), strip_prefix_self.
  rewrite <- !string_app_assoc, endswith_app.
  by rewrite !has_sep_app, Hv, Hs.
Qed.

Lemma new_archive_is_listed_witness :
  let h := host_utc (SettingInt 1) in
  glob_match (backup_pattern h) (archive_path h "1.4.0" live) = true.
Proof.
  apply (new_archive_is_listed (host_utc (SettingInt 1)) "1.4.0" live);
    vm_compute; reflexivity.
Defined.

(** X7: with both files staged and nothing refused,
    [restore_from_backup] (lines 93-125) ends the process with exit code
    0; the live configuration and database hold the staged contents, the
    staged files and the database's [-shm] and [-wal] files are gone and
    the restart sentinel exists, empty. *)
Theorem restore_applies_staged_pair cfg w cc tc cd td :
  let rc := restore_config_path cfg in
  let rd := restore_database_path cfg in
  let dc := dest_config_path cfg in
  let dd := dest_database_path cfg in
  isdir w (restore_dir cfg) = true →
  nodes w !! rc = Some (File cc tc) →
  nodes w !! rd = Some (File cd td) →
  isdir w dc = false → isdir w dd = false → isdir w (restart_path cfg) = false →
  (∀ o, refuses w o = false) →
  let r := restore_from_backup cfg w in
  r.1 = Exit 0 ∧
  nodes r.2 !! dc = Some (File cc (clock w)) ∧
  nodes r.2 !! dd = Some (File cd (clock w)) ∧
  nodes r.2 !! rc = None ∧ nodes r.2 !! rd = None ∧
  isfile r.2 (dd +:+ "-shm") = false ∧ isfile r.2 (dd +:+ "-wal") = false ∧
  nodes r.2 !! restart_path cfg = Some (File (Blob "") (clock w)).
Proof.
  intros rc rd dc dd Hdir Hc Hd Hdc Hdd Hrs Hr. subst rc rd dc dd. cbn zeta.
  rewrite restore_from_backup_present by done. cbn zeta.
  assert (isfile w (restore_config_path cfg) && isfile w (restore_database_path cfg) = true)
    as -> by (unfold isfile; by rewrite Hc, Hd).
  set (w0 := add_log _ _ (add_log _ _ w)).
  rewrite !bind_run.
  destruct (apply_staged_success cfg w0 cc tc cd td) as (wf & -> & H); done.
Qed.

Lemma restore_applies_staged_pair_witness :
  let h := host_utc (SettingInt 1) in
  let r := restore_from_backup h full_staging in
  r.1 = Exit 0 ∧
  nodes r.2 !! dest_config_path h = Some (File (Blob "[general]") (clock full_staging)) ∧
  nodes r.2 !! dest_database_path h = Some (File (Blob "new db") (clock full_staging)) ∧
  nodes r.2 !! restore_config_path h = None ∧
  nodes r.2 !! restore_database_path h = None ∧
  isfile r.2 (dest_database_path h +:+ "-shm") = false ∧
  isfile r.2 (dest_database_path h +:+ "-wal") = false ∧
  nodes r.2 !! restart_path h = Some (File (Blob "") (clock full_staging)).
Proof.
  apply (restore_applies_staged_pair (host_utc (SettingInt 1)) full_staging
           (Blob "[general]") 10 (Blob "new db") 10);
    vm_compute; reflexivity.
Defined.

(** X8: when both copies fail (the live files cannot be
    written), [restore_from_backup] still logs that the backup was
    restored successfully, writes the restart sentinel and exits with
    code 0 (lines 94-125); the live files and the staged files are all
    as before. *)
Theorem failed_restore_still_exits cfg w cc tc cd td :
  let rc := restore_config_path cfg in
  let rd := restore_database_path cfg in
  let dc := dest_config_path cfg in
  let dd := dest_database_path cfg in
  isdir w (restore_dir cfg) = true →
  nodes w !! rc = Some (File cc tc) →
  nodes w !! rd = Some (File cd td) →
  isdir w dc = false → isdir w dd = false → isdir w (restart_path cfg) = false →
  refuses w (OpRead rc) = false → refuses w (OpRead rd) = false →
  refuses w (OpWrite dc) = true → refuses w (OpWrite dd) = true →
  refuses w (OpWrite (restart_path cfg)) = false →
  let r := restore_from_backup cfg w in
  r.1 = Exit 0 ∧
  nodes r.2 = <[restart_path cfg := File (Blob "") (clock w)]> (nodes w) ∧
  (INFO, "Backup restored successfully. Bazarr will restart.") ∈ log r.2.
Proof.
  intros rc rd dc dd Hdir Hc Hd Hdc Hdd Hrs Hrc Hrd Hwc Hwd Hwr.
  subst rc rd dc dd. cbn zeta.
  assert (∃ wf, restore_from_backup cfg w = (Exit 0, wf) ∧
    nodes wf = <[restart_path cfg := File (Blob "") (clock w)]> (nodes w) ∧
    (INFO, "Backup restored successfully. Bazarr will restart.") ∈ log wf)
    as (wf & -> & H); [|done].
  rewrite restore_from_backup_present by done. cbn zeta.
  assert (isfile w (restore_config_path cfg) && isfile w (restore_database_path cfg) = true)
    as -> by (unfold isfile; by rewrite Hc, Hd).
  set (w0 := add_log _ _ (add_log _ _ w)).
  rewrite bind_run. unfold apply_staged.
  rewrite bind_run. unfold try_except at 1. rewrite bind_run.
  rewrite (shutil_copy_refused _ _ w0 cc tc) by done.
  cbn [is_OSError]. unfold logging_exception at 1.
  rewrite bind_run. unfold try_except_else at 1. rewrite bind_run.
  rewrite (shutil_copy_refused _ _ _ cd td) by done.
  cbn [is_OSError]. unfold logging_exception at 1.
  rewrite bind_run. unfold logging_info at 1.
  unfold try_except_else. fold (restart_path cfg).
  rewrite io_open_w_run by done.
  eexists. split; [reflexivity|]. world_simpl. split; [done|]. set_solver.
Qed.

Lemma failed_restore_still_exits_witness :
  let h := host_utc (SettingInt 1) in
  let r := restore_from_backup h copies_refused in
  r.1 = Exit 0 ∧
  nodes r.2 = <[restart_path h := File (Blob "") (clock copies_refused)]>
                (nodes copies_refused) ∧
  (INFO, "Backup restored successfully. Bazarr will restart.") ∈ log r.2.
Proof.
  apply (failed_restore_still_exits (host_utc (SettingInt 1)) copies_refused
           (Blob "[general]") 10 (Blob "new db") 10);
    vm_compute; reflexivity.
Defined.

(** X9: with nothing staged, [restore_from_backup]
    returns at line 130 before the final removals: it logs
    ["No backup to restore."] and neither the store nor the list of
    effects changes. *)
Theorem restore_nothing_staged cfg w :
  isdir w (restore_dir cfg) = true →
  isfile w (restore_config_path cfg) = false →
  isfile w (restore_database_path cfg) = false →
  let r := restore_from_backup cfg w in
  r.1 = Ret tt ∧ nodes r.2 = nodes w ∧ trace r.2 = trace w ∧
  (DEBUG, "No backup to restore.") ∈ log r.2.
Proof.
  intros Hd Hc Hb. cbn zeta. rewrite restore_from_backup_present by done.
  cbn zeta. rewrite Hc, Hb. cbn. repeat split; try done. set_solver.
Qed.

Lemma restore_nothing_staged_witness :
  let h := host_utc (SettingInt 1) in
  let r := restore_from_backup h corrupt_archive in
  r.1 = Ret tt ∧ nodes r.2 = nodes corrupt_archive ∧ trace r.2 = trace corrupt_archive ∧
  (DEBUG, "No backup to restore.") ∈ log r.2.
Proof.
  apply (restore_nothing_staged (host_utc (SettingInt 1)) corrupt_archive);
    vm_compute; reflexivity.
Defined.

(** X10: when the named archive is not a file of the
    backup directory, [prepare_restore] (lines 143-168) logs the failed
    copy, does not ask for a restart and extracts nothing; its [finally]
    block still removes whatever file already sits at the staging path
    of that name. *)
Theorem prepare_restore_without_archive cfg filename w :
  let src := path_join (backup_folder cfg) filename in
  let dst := path_join (restore_dir cfg) filename in
  isdir w (backup_folder cfg) = true →
  isdir w (restore_dir cfg) = true →
  isfile w src = false →
  let r := prepare_restore cfg filename w in
  r.1 = Ret tt ∧
  nodes r.2 = (if removable w dst then delete dst (nodes w) else nodes w) ∧
  trace r.2 = trace w ++ (if removable w dst then [EvRemove dst] else []) ∧
  (EXCEPTION, "Unable to copy backup archive to " +:+ dst) ∈ log r.2.
Proof.
  intros src dst Hb Hrd Hs. subst src dst.
  assert (∃ wf, prepare_restore cfg filename w = (Ret tt, wf) ∧
    nodes wf = (if removable w (path_join (restore_dir cfg) filename)
                then delete (path_join (restore_dir cfg) filename) (nodes w) else nodes w) ∧
    trace wf = trace w ++ (if removable w (path_join (restore_dir cfg) filename)
                           then [EvRemove (path_join (restore_dir cfg) filename)] else []) ∧
    (EXCEPTION, "Unable to copy backup archive to "
                +:+ path_join (restore_dir cfg) filename) ∈ log wf)
    as (wf & -> & H); [|split; [done|exact H]].
  unfold prepare_restore.
  rewrite bind_run, get_backup_path_present by done.
  rewrite bind_run, get_restore_path_present by done.
  rewrite bind_run. unfold stage_archive, try_finally, try_except_else.
  set (w0 := add_log _ _ (add_log _ _ w)).
  assert (shutil_copy (path_join (backup_folder cfg) filename)
            (path_join (restore_dir cfg) filename) w0 = (Raise OSError, w0)) as ->.
  { unfold shutil_copy. destruct (refuses w0 _); [done|].
    unfold isfile in Hs. subst w0. world_simpl.
    destruct (nodes w !! _) as [[]|]; done. }
  cbn [is_OSError]. rewrite bind_run. unfold logging_exception at 1.
  unfold mret, M_ret. rewrite remove_logged.
  eexists. split; [reflexivity|].
  unfold removable, isfile. subst w0. world_simpl.
  destruct (negb _ && _); world_simpl; rewrite ?app_nil_r; repeat split; try done; set_solver.
Qed.

Lemma prepare_restore_without_archive_witness :
  let h := host_utc (SettingInt 1) in
  let dst := path_join (restore_dir h) "missing.zip" in
  let r := prepare_restore h "missing.zip" corrupt_archive in
  r.1 = Ret tt ∧
  nodes r.2 = (if removable corrupt_archive dst
               then delete dst (nodes corrupt_archive) else nodes corrupt_archive) ∧
  trace r.2 = trace corrupt_archive ++
              (if removable corrupt_archive dst then [EvRemove dst] else []) ∧
  (EXCEPTION, "Unable to copy backup archive to " +:+ dst) ∈ log r.2.
Proof.
  apply (prepare_restore_without_archive (host_utc (SettingInt 1)) "missing.zip"
           corrupt_archive); vm_compute; reflexivity.
Defined.



(** X12: staging followed by the restore at the next
    start: for an archive with the members [bazarr.db] and [config.ini],
    [prepare_restore] then [restore_from_backup] replace the live
    database and configuration by the archive's members and leave
    nothing staged. *)
Theorem staged_archive_is_restored cfg filename d c t w :
  let src := path_join (backup_folder cfg) filename in
  let dst := path_join (restore_dir cfg) filename in
  let rc := restore_config_path cfg in
  let rd := restore_database_path cfg in
  let dc := dest_config_path cfg in
  let dd := dest_database_path cfg in
  isdir w (backup_folder cfg) = true →
  isdir w (restore_dir cfg) = true →
  nodes w !! src = Some (File (Zip [("bazarr.db", d); ("config.ini", c)]) t) →
  isdir w dst = false → src ≠ dst → dst ≠ rc → dst ≠ rd →
  isdir w rc = false → isdir w rd = false →
  isdir w dc = false → isdir w dd = false → isdir w (restart_path cfg) = false →
  (∀ o, refuses w o = false) →
  let staged := prepare_restore cfg filename w in
  let r := restore_from_backup cfg staged.2 in
  staged.1 = Ret tt ∧ EvRestart ∈ trace staged.2 ∧
  r.1 = Exit 0 ∧
  nodes r.2 !! dc = Some (File c (clock w)) ∧
  nodes r.2 !! dd = Some (File d (clock w)) ∧
  nodes r.2 !! rc = None ∧ nodes r.2 !! rd = None.
Proof.
  intros src dst rc rd dc dd Hb Hrdir Hs Hdst Hne Hnc Hnd Hrc Hrd Hdc Hdd Hrs Hr.
  destruct (prepare_restore_run cfg filename _ t w Hb Hrdir Hs Hdst Hne)
    as (w1 & E & Hrf & Hck & Hn & Ht); [|exact Hr|].
  { repeat constructor; done. }
  cbn zeta. rewrite E. cbn [fst snd]. split; [done|].
  split. { rewrite Ht. set_solver. }
  cbn [foldl] in Hn. unfold stage_member in Hn. cbn [fst snd] in Hn.
  change (path_join (restore_dir cfg) (lstrip_sep "bazarr.db")) with rd in Hn.
  change (path_join (restore_dir cfg) (lstrip_sep "config.ini")) with rc in Hn.
  fold dst in Hn.
  assert (rc ≠ rd) as Hcd by (subst rc rd; path_ne).
  assert (∀ p, isdir w1 p = true → isdir w p = true) as Hdirs.
  { intros p. unfold isdir. rewrite Hn.
    destruct (decide (p = dst)) as [->|?]; [by rewrite lookup_delete_eq|].
    rewrite lookup_delete_ne by done.
    destruct (decide (p = rc)) as [->|?]; [by rewrite lookup_insert_eq|].
    rewrite lookup_insert_ne by done.
    destruct (decide (p = rd)) as [->|?]; [by rewrite lookup_insert_eq|].
    by rewrite lookup_insert_ne. }
  assert (∀ p, isdir w p = false → isdir w1 p = false) as Hnot.
  { intros p Hp. destruct (isdir w1 p) eqn:E1; [|done]. apply Hdirs in E1. congruence. }
  assert (isdir w1 (restore_dir cfg) = true) as Hrdir1.
  { unfold isdir in *. rewrite Hn.
    rewrite lookup_delete_ne by (intros E1; fold dst in E1; rewrite <- E1 in Hrdir; congruence).
    rewrite lookup_insert_ne by (intros E1; fold rc in E1; rewrite E1 in Hrc; congruence).
    rewrite lookup_insert_ne by (intros E1; fold rd in E1; rewrite E1 in Hrd; congruence).
    done. }
  rewrite restore_from_backup_present by done. cbn zeta.
  fold rc rd dc dd.
  assert (nodes w1 !! rc = Some (File c (clock w))) as Hc1.
  { rewrite Hn, lookup_delete_ne by done. by rewrite lookup_insert_eq. }
  assert (nodes w1 !! rd = Some (File d (clock w))) as Hd1.
  { rewrite Hn, lookup_delete_ne by done. rewrite lookup_insert_ne by done.
    by rewrite lookup_insert_eq. }
  assert (isfile w1 rc && isfile w1 rd = true) as ->
    by (unfold isfile; by rewrite Hc1, Hd1).
  set (w0 := add_log _ _ (add_log _ _ w1)).
  subst rc rd dc dd. rewrite !bind_run.
  destruct (apply_staged_success cfg w0 c (clock w) d (clock w))
    as (wf & -> & H1 & H2 & H3 & H4 & _); try done.
  - by apply Hnot.
  - by apply Hnot.
  - by apply Hnot.
  - intros o. change (refuses w0 o) with (refuses w1 o). rewrite Hrf. apply Hr.
  - cbn [fst snd]. change (clock w0) with (clock w1) in *. rewrite Hck in *. done.
Qed.

Lemma staged_archive_is_restored_witness :
  let h := host_utc (SettingInt 1) in
  let staged := prepare_restore h saved_name backup_store in
  let r := restore_from_backup h staged.2 in
  staged.1 = Ret tt ∧ EvRestart ∈ trace staged.2 ∧
  r.1 = Exit 0 ∧
  nodes r.2 !! dest_config_path h = Some (File (Blob "[saved]") (clock backup_store)) ∧
  nodes r.2 !! dest_database_path h = Some (File (Blob "saved db") (clock backup_store)) ∧
  nodes r.2 !! restore_config_path h = None ∧
  nodes r.2 !! restore_database_path h = None.
Proof.
  apply (staged_archive_is_restored (host_utc (SettingInt 1)) saved_name
           (Blob "saved db") (Blob "[saved]") 50 backup_store);
    first [vm_compute; reflexivity | vm_compute; discriminate].
Defined.

(** X13: an archive that holds [config.ini] only (what
    [backup_to_zip] leaves when the snapshot failed) cannot be restored:
    [prepare_restore] stages it and asks for a restart, and
    [restore_from_backup] then discards the staged file and leaves the
    live configuration as it was. *)
Theorem config_only_archive_is_discarded cfg filename c t w :
  let src := path_join (backup_folder cfg) filename in
  let dst := path_join (restore_dir cfg) filename in
  let rc := restore_config_path cfg in
  let rd := restore_database_path cfg in
  let dc := dest_config_path cfg in
  isdir w (backup_folder cfg) = true →
  isdir w (restore_dir cfg) = true →
  nodes w !! src = Some (File (Zip [("config.ini", c)]) t) →
  isdir w dst = false → src ≠ dst → dst ≠ rc → dst ≠ dc →
  isdir w rc = false → nodes w !! rd = None →
  (∀ o, refuses w o = false) →
  let staged := prepare_restore cfg filename w in
  let r := restore_from_backup cfg staged.2 in
  staged.1 = Ret tt ∧ EvRestart ∈ trace staged.2 ∧
  r.1 = Ret tt ∧
  nodes r.2 !! dc = nodes w !! dc ∧
  nodes r.2 !! rc = None.
Proof.
  intros src dst rc rd dc Hb Hrdir Hs Hdst Hne Hnc Hndc Hrc Hrd Hr.
  destruct (prepare_restore_run cfg filename _ t w Hb Hrdir Hs Hdst Hne)
    as (w1 & E & Hrf & Hck & Hn & Ht); [|exact Hr|].
  { repeat constructor; done. }
  cbn zeta. rewrite E. cbn [fst snd]. split; [done|].
  split. { rewrite Ht. set_solver. }
  cbn [foldl] in Hn. unfold stage_member in Hn. cbn [fst snd] in Hn.
  change (path_join (restore_dir cfg) (lstrip_sep "config.ini")) with rc in Hn.
  fold dst in Hn.
  assert (rc ≠ rd) as Hcd by (subst rc rd; path_ne).
  assert (rc ≠ dc) as Hcdc by (subst rc dc; path_ne).
  assert (isdir w1 (restore_dir cfg) = true) as Hrdir1.
  { unfold isdir in *. rewrite Hn.
    rewrite lookup_delete_ne by (intros E1; fold dst in E1; rewrite <- E1 in Hrdir; congruence).
    rewrite lookup_insert_ne by (intros E1; fold rc in E1; rewrite E1 in Hrc; congruence).
    done. }
  rewrite restore_from_backup_present by done. cbn zeta.
  fold rc rd dc.
  assert (isfile w1 rc = true) as Hc1.
  { unfold isfile. rewrite Hn, lookup_delete_ne by done. by rewrite lookup_insert_eq. }
  assert (isfile w1 rd = false) as Hd1.
  { unfold isfile. rewrite Hn.
    destruct (decide (rd = dst)) as [->|?]; [by rewrite lookup_delete_eq|].
    rewrite lookup_delete_ne by done. rewrite lookup_insert_ne by done. by rewrite Hrd. }
  rewrite Hc1, Hd1. cbn [andb orb].
  rewrite !bind_run. unfold logging_debug.
  set (w0 := add_log DEBUG
    "Cannot restore a partial backup. You must have both config and database." _).
  subst rc rd. rewrite remove_staged_run. cbn [fst snd].
  assert (removable w0 (restore_config_path cfg) = true) as ->.
  { unfold removable. change (refuses w0) with (refuses w1). rewrite Hrf, Hr. done. }
  assert (removable w0 (restore_database_path cfg) = false) as ->.
  { unfold removable. change (isfile w0 ?p) with (isfile w1 p). rewrite Hd1.
    by rewrite andb_false_r. }
  cbn zeta. world_simpl. split; [done|].
  change (nodes w0) with (nodes w1). rewrite Hn. split.
  - rewrite lookup_delete_ne by done. rewrite lookup_delete_ne by done.
    by rewrite lookup_insert_ne.
  - by rewrite lookup_delete_eq.
Qed.

Lemma config_only_archive_is_discarded_witness :
  let h := host_utc (SettingInt 1) in
  let staged := prepare_restore h saved_name degraded_store in
  let r := restore_from_backup h staged.2 in
  staged.1 = Ret tt ∧ EvRestart ∈ trace staged.2 ∧
  r.1 = Ret tt ∧
  nodes r.2 !! dest_config_path h = nodes degraded_store !! dest_config_path h ∧
  nodes r.2 !! restore_config_path h = None.
Proof.
  apply (config_only_archive_is_discarded (host_utc (SettingInt 1)) saved_name
           (Blob "[saved]") 50 degraded_store);
    first [vm_compute; reflexivity | vm_compute; discriminate].
Defined.







(** X17: with the backup directory in place,
    [delete_backup_file] (lines 192-199) returns [True] exactly when the
    named path is a file whose removal is not refused; then the file is
    gone and that removal is its only effect, and otherwise it returns
    [False] and changes nothing. *)
Theorem delete_backup_file_result cfg filename w :
  isdir w (backup_folder cfg) = true →
  let p := path_join (backup_folder cfg) filename in
  let r := delete_backup_file cfg filename w in
  r.1 = Ret (removable w p) ∧
  nodes r.2 = (if removable w p then delete p (nodes w) else nodes w) ∧
  trace r.2 = trace w ++ (if removable w p then [EvRemove p] else []).
Proof.
  intros Hd. cbn zeta. unfold delete_backup_file.
  rewrite bind_run, get_backup_path_present by done.
  unfold try_except. rewrite bind_run.
  unfold os_remove, removable, isfile. world_simpl.
  destruct (refuses w _); cbn; [by rewrite app_nil_r|].
  destruct (nodes w !! _) as [[]|]; cbn; by rewrite ?app_nil_r.
Qed.

Lemma delete_backup_file_result_witness :
  let h := host_utc (SettingInt 1) in
  let p := path_join (backup_folder h) saved_name in
  let r := delete_backup_file h saved_name one_archive_20h in
  r.1 = Ret (removable one_archive_20h p) ∧
  nodes r.2 = (if removable one_archive_20h p
               then delete p (nodes one_archive_20h) else nodes one_archive_20h) ∧
  trace r.2 = trace one_archive_20h ++
              (if removable one_archive_20h p then [EvRemove p] else []).
Proof.
  apply (delete_backup_file_result (host_utc (SettingInt 1)) saved_name one_archive_20h).
  vm_compute. reflexivity.
Defined.

(** X18: [sizeof_fmt] (lines 202-207) never scales an
    integer below 1000 in absolute value: the result is the number with
    one decimal [.0], a space, and the bare suffix. *)
Theorem sizeof_fmt_below_1000 z suffix :
  Z.abs z < 1000 → sizeof_fmt (PyInt z) suffix = Ret (pretty z +:+ ".0 " +:+ suffix).
Proof.
  intros Hz. unfold sizeof_fmt, sizeof_fmt_loop. unfold abs_lt_1000.
  assert ((Z.abs z <? 1000) = true) as -> by lia.
  rewrite format_small_int by done. cbn.
  f_equal. rewrite string_app_assoc. reflexivity.
Qed.

Lemma sizeof_fmt_below_1000_witness : sizeof_fmt (PyInt 512) "B" = Ret "512.0 B".
Proof. apply (sizeof_fmt_below_1000 512 "B"). reflexivity. Defined.

(** X19: when the provider returns a result, the handler
    [get] (lines 39-41) returns one entry for every directory of the
    result, in the provider's order, none dropped and none added. *)
Theorem get_lists_every_directory
    (browse : string → outcome (option FilesRadarr.provider_result)) path result :
  browse path = Ret (Some result) →
  FilesRadarr.get browse path =
    Ret (map (λ item, FilesRadarr.Entry (FilesRadarr.item_name item) true
                        (FilesRadarr.item_path item))
           (FilesRadarr.directories result)).
Proof.
  intros H. unfold FilesRadarr.get, FilesRadarr.browse_or_none.
  rewrite H. cbn. by rewrite foldl_snoc_map.
Qed.

Lemma get_lists_every_directory_witness :
  FilesRadarr.get provider_two "/" =
  Ret [FilesRadarr.Entry "movies" true "/movies"; FilesRadarr.Entry "tv" true "/tv"].
Proof.
  apply (get_lists_every_directory provider_two "/"
           (FilesRadarr.ProviderResult
              [FilesRadarr.ProviderItem "movies" "/movies";
               FilesRadarr.ProviderItem "tv" "/tv"])).
  reflexivity.
Defined.

(** X20: [except Exception] (line 37) does not catch what
    derives from [BaseException] only: such an exception of the provider
    leaves the handler. *)
Theorem get_lets_base_exceptions_through
    (browse : string → outcome (option FilesRadarr.provider_result)) path e :
  browse path = Raise e → is_Exception e = false →
  FilesRadarr.get browse path = Raise e.
Proof.
  intros H He. unfold FilesRadarr.get, FilesRadarr.browse_or_none.
  rewrite H. cbn. by rewrite He.
Qed.

Lemma get_lets_base_exceptions_through_witness :
  FilesRadarr.get provider_interrupted "/" = Raise KeyboardInterrupt.
Proof.
  apply (get_lets_base_exceptions_through provider_interrupted "/" KeyboardInterrupt);
    reflexivity.
Defined.
